(** * mcphub front end: the server-list provider and its session store

    A shallow embedding of

    - [frontend/src/utils/sessionStorage.ts]
      ([getSessionNumber], [setSessionNumber]), and
    - the [ServerProvider] component (the polling controller of the
      server list: [clearTimer], [startNormalPolling], [fetchServers],
      [fetchInitialData], the two effects, [triggerRefresh],
      [refreshIfNeeded]).

    React state, refs and the environment the component reads
    ([auth.isAuthenticated], [navigator.onLine], [Date.now()],
    [NODE_ENV]) are an explicit record that every handler transforms.
    An [await] splits a handler in two: issuing the requests puts a
    record of the closure in the list of requests in flight, and the
    continuation is a function of the settled promises. *)

From Stdlib Require Import ZArith Lia Bool List.
From Stdlib Require Import Ascii String.
From Stdlib Require Import Decimal DecimalString DecimalZ.
From stdpp Require Import base option gmap strings.

Import ListNotations.
Local Open Scope string_scope.
Local Open Scope Z_scope.

(* ===================================================================== *)
(** ** The keyed session store *)
(* ===================================================================== *)

Module SessionStorage.

(** The part of the JavaScript [number] type the two helpers use:
    [Number.isFinite], the comparison [parsed > 0], [String(value)] and
    [Number(stored)].  The two laws are the ones ECMA-262 gives for
    them: [Number(String(x))] is [x] for a finite [x] other than [-0],
    and [Number("")] is [0]. *)
Class JsNumber := {
  number : Type;
  isFinite : number -> bool;
  gt0 : number -> bool;
  toString : number -> string;
  toNumber : string -> number;
  toNumber_toString :
    forall v, isFinite v = true -> gt0 v = true -> toNumber (toString v) = v;
  toNumber_empty : gt0 (toNumber "") = false
}.

(** [window.sessionStorage]: string keys to string values.  The global
    [window] is absent outside a browser, whence the [option]. *)
Definition Window := option (gmap string string).

(** [!stored] for [stored : string | null]. *)
Definition falsyItem (stored : option string) : bool :=
  match stored with
  | None => true
  | Some s => if decide (s = "") then true else false
  end.

Section Helpers.
Context {N : JsNumber}.

Definition getSessionNumber (window : Window) (key : string) (fallback : number)
  : number :=
  match window with
  | None => fallback
  | Some sessionStorage =>
      let stored := sessionStorage !! key in
      if falsyItem stored then fallback
      else
        match stored with
        | None => fallback
        | Some s =>
            let parsed := toNumber s in
            if isFinite parsed && gt0 parsed then parsed else fallback
        end
  end.

Definition setSessionNumber (window : Window) (key : string) (value : number)
  : Window :=
  match window with
  | None => None
  | Some sessionStorage =>
      if negb (isFinite value) then Some sessionStorage
      else Some (<[key := toString value]> sessionStorage)
  end.

End Helpers.

(** *** An instance: integer values in plain decimal

    Page sizes are integers.  This instance has the integers, [NaN] and
    the two infinities.  It prints an integer in plain decimal, which
    is what [String] gives for the integers a [number] holds exactly
    (the safe integers, of magnitude below [2^53]); it reads back a
    plain decimal numeral, ["Infinity"], ["-Infinity"] and the empty
    string, and takes any other text for [NaN].  [Number] reads more
    than that (exponents, hexadecimal, fractions, a sign [+], white
    space around the numeral): what is stated on this instance keeps
    to safe integers and to the texts the helpers write for them. *)
Inductive IntNumber :=
| NFin (z : Z)
| NNaN
| NInf (negative : bool).

Definition int_isFinite (v : IntNumber) : bool :=
  match v with NFin _ => true | _ => false end.

Definition int_gt0 (v : IntNumber) : bool :=
  match v with
  | NFin z => 0 <? z
  | NNaN => false
  | NInf negative => negb negative
  end.

Definition int_toString (v : IntNumber) : string :=
  match v with
  | NFin z => NilZero.string_of_int (Z.to_int z)
  | NNaN => "NaN"
  | NInf false => "Infinity"
  | NInf true => "-Infinity"
  end.

Definition int_toNumber (s : string) : IntNumber :=
  match NilZero.int_of_string s with
  | Some d => NFin (Z.of_int d)
  | None =>
      if String.eqb s "" then NFin 0
      else if String.eqb s "Infinity" then NInf false
      else if String.eqb s "-Infinity" then NInf true
      else NNaN
  end.

End SessionStorage.
(* ===================================================================== *)
(** ** The server-list provider *)
(* ===================================================================== *)

Module Provider.

(** *** Values received from the backend

    [apiGet] resolves to whatever the response body parses to; the
    TypeScript types are erased at run time, so the handlers inspect
    the value itself.  Numbers are integers here: the handlers only
    test a value for truthiness. *)
#[local] Set Warnings "-register-all".
Inductive Json :=
| JUndefined
| JNull
| JBool (b : bool)
| JNum (n : Z)
| JStr (s : string)
| JArr (items : list Json)
| JObj (fields : list (string * Json)).

(** JavaScript's ToBoolean. *)
Definition truthy (v : Json) : bool :=
  match v with
  | JUndefined | JNull => false
  | JBool b => b
  | JNum n => negb (n =? 0)
  | JStr s => negb (String.eqb s "")
  | JArr _ | JObj _ => true
  end.

Fixpoint lookupField (k : string) (fields : list (string * Json)) : Json :=
  match fields with
  | [] => JUndefined
  | (k', v) :: rest => if String.eqb k k' then v else lookupField k rest
  end.

(** [v.k] for the keys the handlers read ([success], [data],
    [pagination]): an own field of an object, [undefined] on an array
    or a primitive.  The handlers guard every access with [v && ...],
    so it is never evaluated on [null] or [undefined]. *)
Definition getProp (v : Json) (k : string) : Json :=
  match v with
  | JObj fields => lookupField k fields
  | _ => JUndefined
  end.

(** [Array.isArray]. *)
Definition isArray (v : Json) : bool :=
  match v with JArr _ => true | _ => false end.

Definition arrayItems (v : Json) : list Json :=
  match v with JArr items => items | _ => [] end.

(** *** Promises *)

(** A thrown value: whether it is an [instanceof TypeError], and its
    [message]. *)
Record JsError := { isTypeError : bool; message : string }.

Inductive Settled :=
| Resolved (value : Json)
| Rejected (err : JsError).

(** What [await Promise.all([a, b])] gives: both values, or the reason
    of the promise that rejected first. *)
Inductive AllSettled :=
| AllResolved (paginatedData allData : Json)
| AllRejected (err : JsError).

(** [secondFirst] tells which promise rejected first when both do. *)
Definition promiseAll (paginated full : Settled) (secondFirst : bool)
  : AllSettled :=
  match paginated, full with
  | Resolved p, Resolved a => AllResolved p a
  | Rejected e, Resolved _ => AllRejected e
  | Resolved _, Rejected e => AllRejected e
  | Rejected e1, Rejected e2 => AllRejected (if secondFirst then e2 else e1)
  end.

(** [s.includes(sub)]. *)
Fixpoint includes (s sub : string) : bool :=
  String.prefix sub s ||
  match s with
  | EmptyString => false
  | String _ rest => includes rest sub
  end.

(** *** Configuration *)

Module CONFIG.
Module startup.
Definition maxAttempts : Z := 60.
Definition pollingInterval : Z := 3000.
End startup.
Module normal.
Definition pollingInterval : Z := 10000.
End normal.
End CONFIG.

Definition MIN_REFRESH_INTERVAL (development : bool) : Z :=
  if development then 5000 else 3000.

(** *** The component's state *)

(** The two polling functions. *)
Inductive Poller := FetchInitialData | FetchServers.

(** A call of a polling function that awaits its two requests.  [page]
    and [limit] are the values its closure captured.  [origin] is the
    value [refreshKey] had when the call was made; no handler reads
    it, it is kept to state properties of late responses. *)
Record Request := {
  poller : Poller;
  page : Z;
  limit : Z;
  origin : Z
}.

(** What [setInterval] registered. *)
Record Timer := {
  callback : Poller;
  timerPage : Z;
  timerLimit : Z;
  delay : Z
}.

(** [useState] values, [useRef] values, the session gate and the calls
    in flight.  [error] holds the key given to the translation function
    [t]. *)
Record World := {
  servers : list Json;
  allServers : list Json;
  error : option string;
  refreshKey : Z;
  isInitialLoading : bool;
  fetchAttempts : Z;
  pagination : option Json;
  currentPage : Z;
  serversPerPage : Z;
  intervalRef : option Timer;
  attemptsRef : Z;
  lastFetchTimeRef : Z;
  isAuthenticated : bool;
  inflight : list Request
}.

(** One update function per field, as [useState] gives one setter per
    value. *)
Definition setServers (x : list Json) (w : World) : World :=
  {| servers := x; allServers := allServers w; error := error w;
     refreshKey := refreshKey w; isInitialLoading := isInitialLoading w;
     fetchAttempts := fetchAttempts w; pagination := pagination w;
     currentPage := currentPage w; serversPerPage := serversPerPage w;
     intervalRef := intervalRef w; attemptsRef := attemptsRef w;
     lastFetchTimeRef := lastFetchTimeRef w;
     isAuthenticated := isAuthenticated w; inflight := inflight w |}.

Definition setAllServers (x : list Json) (w : World) : World :=
  {| servers := servers w; allServers := x; error := error w;
     refreshKey := refreshKey w; isInitialLoading := isInitialLoading w;
     fetchAttempts := fetchAttempts w; pagination := pagination w;
     currentPage := currentPage w; serversPerPage := serversPerPage w;
     intervalRef := intervalRef w; attemptsRef := attemptsRef w;
     lastFetchTimeRef := lastFetchTimeRef w;
     isAuthenticated := isAuthenticated w; inflight := inflight w |}.

Definition setError (x : option string) (w : World) : World :=
  {| servers := servers w; allServers := allServers w; error := x;
     refreshKey := refreshKey w; isInitialLoading := isInitialLoading w;
     fetchAttempts := fetchAttempts w; pagination := pagination w;
     currentPage := currentPage w; serversPerPage := serversPerPage w;
     intervalRef := intervalRef w; attemptsRef := attemptsRef w;
     lastFetchTimeRef := lastFetchTimeRef w;
     isAuthenticated := isAuthenticated w; inflight := inflight w |}.

Definition setRefreshKey (x : Z) (w : World) : World :=
  {| servers := servers w; allServers := allServers w; error := error w;
     refreshKey := x; isInitialLoading := isInitialLoading w;
     fetchAttempts := fetchAttempts w; pagination := pagination w;
     currentPage := currentPage w; serversPerPage := serversPerPage w;
     intervalRef := intervalRef w; attemptsRef := attemptsRef w;
     lastFetchTimeRef := lastFetchTimeRef w;
     isAuthenticated := isAuthenticated w; inflight := inflight w |}.

Definition setIsInitialLoading (x : bool) (w : World) : World :=
  {| servers := servers w; allServers := allServers w; error := error w;
     refreshKey := refreshKey w; isInitialLoading := x;
     fetchAttempts := fetchAttempts w; pagination := pagination w;
     currentPage := currentPage w; serversPerPage := serversPerPage w;
     intervalRef := intervalRef w; attemptsRef := attemptsRef w;
     lastFetchTimeRef := lastFetchTimeRef w;
     isAuthenticated := isAuthenticated w; inflight := inflight w |}.

Definition setFetchAttempts (x : Z) (w : World) : World :=
  {| servers := servers w; allServers := allServers w; error := error w;
     refreshKey := refreshKey w; isInitialLoading := isInitialLoading w;
     fetchAttempts := x; pagination := pagination w;
     currentPage := currentPage w; serversPerPage := serversPerPage w;
     intervalRef := intervalRef w; attemptsRef := attemptsRef w;
     lastFetchTimeRef := lastFetchTimeRef w;
     isAuthenticated := isAuthenticated w; inflight := inflight w |}.

Definition setPagination (x : option Json) (w : World) : World :=
  {| servers := servers w; allServers := allServers w; error := error w;
     refreshKey := refreshKey w; isInitialLoading := isInitialLoading w;
     fetchAttempts := fetchAttempts w; pagination := x;
     currentPage := currentPage w; serversPerPage := serversPerPage w;
     intervalRef := intervalRef w; attemptsRef := attemptsRef w;
     lastFetchTimeRef := lastFetchTimeRef w;
     isAuthenticated := isAuthenticated w; inflight := inflight w |}.

Definition setCurrentPage (x : Z) (w : World) : World :=
  {| servers := servers w; allServers := allServers w; error := error w;
     refreshKey := refreshKey w; isInitialLoading := isInitialLoading w;
     fetchAttempts := fetchAttempts w; pagination := pagination w;
     currentPage := x; serversPerPage := serversPerPage w;
     intervalRef := intervalRef w; attemptsRef := attemptsRef w;
     lastFetchTimeRef := lastFetchTimeRef w;
     isAuthenticated := isAuthenticated w; inflight := inflight w |}.

Definition setServersPerPage (x : Z) (w : World) : World :=
  {| servers := servers w; allServers := allServers w; error := error w;
     refreshKey := refreshKey w; isInitialLoading := isInitialLoading w;
     fetchAttempts := fetchAttempts w; pagination := pagination w;
     currentPage := currentPage w; serversPerPage := x;
     intervalRef := intervalRef w; attemptsRef := attemptsRef w;
     lastFetchTimeRef := lastFetchTimeRef w;
     isAuthenticated := isAuthenticated w; inflight := inflight w |}.

Definition setIntervalRef (x : option Timer) (w : World) : World :=
  {| servers := servers w; allServers := allServers w; error := error w;
     refreshKey := refreshKey w; isInitialLoading := isInitialLoading w;
     fetchAttempts := fetchAttempts w; pagination := pagination w;
     currentPage := currentPage w; serversPerPage := serversPerPage w;
     intervalRef := x; attemptsRef := attemptsRef w;
     lastFetchTimeRef := lastFetchTimeRef w;
     isAuthenticated := isAuthenticated w; inflight := inflight w |}.

Definition setAttemptsRef (x : Z) (w : World) : World :=
  {| servers := servers w; allServers := allServers w; error := error w;
     refreshKey := refreshKey w; isInitialLoading := isInitialLoading w;
     fetchAttempts := fetchAttempts w; pagination := pagination w;
     currentPage := currentPage w; serversPerPage := serversPerPage w;
     intervalRef := intervalRef w; attemptsRef := x;
     lastFetchTimeRef := lastFetchTimeRef w;
     isAuthenticated := isAuthenticated w; inflight := inflight w |}.

Definition setLastFetchTimeRef (x : Z) (w : World) : World :=
  {| servers := servers w; allServers := allServers w; error := error w;
     refreshKey := refreshKey w; isInitialLoading := isInitialLoading w;
     fetchAttempts := fetchAttempts w; pagination := pagination w;
     currentPage := currentPage w; serversPerPage := serversPerPage w;
     intervalRef := intervalRef w; attemptsRef := attemptsRef w;
     lastFetchTimeRef := x; isAuthenticated := isAuthenticated w;
     inflight := inflight w |}.

Definition setIsAuthenticated (x : bool) (w : World) : World :=
  {| servers := servers w; allServers := allServers w; error := error w;
     refreshKey := refreshKey w; isInitialLoading := isInitialLoading w;
     fetchAttempts := fetchAttempts w; pagination := pagination w;
     currentPage := currentPage w; serversPerPage := serversPerPage w;
     intervalRef := intervalRef w; attemptsRef := attemptsRef w;
     lastFetchTimeRef := lastFetchTimeRef w; isAuthenticated := x;
     inflight := inflight w |}.

Definition setInflight (x : list Request) (w : World) : World :=
  {| servers := servers w; allServers := allServers w; error := error w;
     refreshKey := refreshKey w; isInitialLoading := isInitialLoading w;
     fetchAttempts := fetchAttempts w; pagination := pagination w;
     currentPage := currentPage w; serversPerPage := serversPerPage w;
     intervalRef := intervalRef w; attemptsRef := attemptsRef w;
     lastFetchTimeRef := lastFetchTimeRef w;
     isAuthenticated := isAuthenticated w; inflight := x |}.

(** The state at the first render; [perPage] is what
    [getSessionNumber('servers.serversPerPage', 5)] returned. *)
Definition initial (auth : bool) (perPage : Z) : World :=
  {| servers := []; allServers := []; error := None; refreshKey := 0;
     isInitialLoading := true; fetchAttempts := 0; pagination := None;
     currentPage := 1; serversPerPage := perPage; intervalRef := None;
     attemptsRef := 0; lastFetchTimeRef := 0; isAuthenticated := auth;
     inflight := [] |}.

(** What consumers observe of the synchronized data. *)
Definition sink (w : World)
  : list Json * list Json * option Json * option string :=
  (servers w, allServers w, pagination w, error w).

(** *** Timers and requests *)

Definition clearTimer (w : World) : World :=
  match intervalRef w with
  | Some _ => setIntervalRef None w
  | None => w
  end.

(** Calling a polling function: it runs up to its [await]. *)
Definition call (p : Poller) (pg lim : Z) (w : World) : World :=
  setInflight
    (inflight w ++
       [{| poller := p; page := pg; limit := lim; origin := refreshKey w |}])
    w.

(** [startNormalPolling(options)]; [immediate] is [options?.immediate],
    and [pg], [lim] the page and limit its closure captured. *)
Definition startNormalPolling (pg lim : Z) (immediate : option bool)
    (w : World) : World :=
  let immediate := default true immediate in
  let w := clearTimer w in
  let w := if immediate then call FetchServers pg lim w else w in
  setIntervalRef
    (Some {| callback := FetchServers; timerPage := pg; timerLimit := lim;
             delay := CONFIG.normal.pollingInterval |})
    w.

(** *** The response handlers *)

(** "Handle paginated response": the same three-way test in
    [fetchServers] and in [fetchInitialData]. *)
Definition handlePaginated (paginatedData : Json) (w : World) : World :=
  if truthy paginatedData && truthy (getProp paginatedData "success")
     && isArray (getProp paginatedData "data")
  then
    let w := setServers (arrayItems (getProp paginatedData "data")) w in
    if truthy (getProp paginatedData "pagination")
    then setPagination (Some (getProp paginatedData "pagination")) w
    else setPagination None w
  else if truthy paginatedData && isArray paginatedData
  then setPagination None (setServers (arrayItems paginatedData) w)
  else setPagination None (setServers [] w).

(** "Handle all servers response". *)
Definition handleAll (allData : Json) (w : World) : World :=
  if truthy allData && truthy (getProp allData "success")
     && isArray (getProp allData "data")
  then setAllServers (arrayItems (getProp allData "data")) w
  else if truthy allData && isArray allData
  then setAllServers (arrayItems allData) w
  else setAllServers [] w.

(** The message key chosen in the [catch] of [fetchServers]. *)
Definition normalErrorKey (onLine : bool) (err : JsError) : string :=
  if negb onLine then "errors.network"
  else if isTypeError err
          && (includes (message err) "NetworkError"
              || includes (message err) "Failed to fetch")
  then "errors.serverConnection"
  else "errors.serverFetch".

(** The message key chosen in the [catch] of [fetchInitialData]. *)
Definition startupErrorKey (onLine : bool) (err : JsError) : string :=
  if negb onLine then "errors.network" else "errors.initialStartup".

(** [fetchServers] from its [await] on.  [now] is [Date.now()] and
    [onLine] is [navigator.onLine] at that moment. *)
Definition fetchServers (r : AllSettled) (now : Z) (onLine : bool)
    (w : World) : World :=
  match r with
  | AllResolved paginatedData allData =>
      let w := setLastFetchTimeRef now w in
      let w := handlePaginated paginatedData w in
      let w := handleAll allData w in
      setError None w
  | AllRejected err =>
      setError (Some (normalErrorKey onLine err)) w
  end.

(** [fetchInitialData] from its [await] on; [pg] and [lim] are the page
    and limit of the render that created the closure, which the
    [startNormalPolling] it holds uses as well. *)
Definition fetchInitialData (pg lim : Z) (r : AllSettled) (now : Z)
    (onLine : bool) (w : World) : World :=
  match r with
  | AllResolved paginatedData allData =>
      let w := setLastFetchTimeRef now w in
      let w := handlePaginated paginatedData w in
      let w := handleAll allData w in
      let w := setIsInitialLoading false w in
      startNormalPolling pg lim (Some false) w
  | AllRejected err =>
      let w := setAttemptsRef (attemptsRef w + 1) w in
      let w := setFetchAttempts (attemptsRef w) w in
      let w := setError (Some (startupErrorKey onLine err)) w in
      if attemptsRef w >=? CONFIG.startup.maxAttempts then
        let w := setIsInitialLoading false w in
        let w := clearTimer w in
        startNormalPolling pg lim None w
      else w
  end.

(** The continuation of a call in flight. *)
Definition resume (req : Request) (r : AllSettled) (now : Z) (onLine : bool)
    (w : World) : World :=
  match poller req with
  | FetchInitialData => fetchInitialData (page req) (limit req) r now onLine w
  | FetchServers => fetchServers r now onLine w
  end.

(** *** Effects *)

(** "Watch for authentication status changes". *)
Definition authEffect (w : World) : World :=
  if isAuthenticated w then setRefreshKey (refreshKey w + 1) w
  else
    let w := clearTimer w in
    let w := setServers [] w in
    let w := setAllServers [] w in
    let w := setIsInitialLoading false w in
    setError None w.

(** The polling effect; its cleanup is [clearTimer]. *)
Definition pollingEffect (w : World) : World :=
  if negb (isAuthenticated w) then w
  else
    let w :=
      if refreshKey w >? 0 then setFetchAttempts 0 (setAttemptsRef 0 w)
      else w in
    if isInitialLoading w then
      let w := clearTimer w in
      let w := call FetchInitialData (currentPage w) (serversPerPage w) w in
      setIntervalRef
        (Some {| callback := FetchInitialData; timerPage := currentPage w;
                 timerLimit := serversPerPage w;
                 delay := CONFIG.startup.pollingInterval |})
        w
    else startNormalPolling (currentPage w) (serversPerPage w) None w.

(** The polling effect's dependency array, [t] apart (it is stable);
    [startNormalPolling] is recreated exactly when [currentPage] or
    [serversPerPage] changes. *)
Definition sameDeps (prev w : World) : bool :=
  (refreshKey prev =? refreshKey w)
  && Bool.eqb (isInitialLoading prev) (isInitialLoading w)
  && (currentPage prev =? currentPage w)
  && (serversPerPage prev =? serversPerPage w).

(** The render that follows a handler: when a dependency of the polling
    effect changed since the render [prev], its cleanup runs and then
    the effect. *)
Definition commit (prev w : World) : World :=
  if sameDeps prev w then w else pollingEffect (clearTimer w).

(** The first render.  A state update made by an effect shows from the
    next render on, so the polling effect of the first render still
    reads [refreshKey = 0]; the update of the auth effect then causes a
    second render. *)
Definition mount (auth : bool) (perPage : Z) : World :=
  let w0 := initial auth perPage in
  commit w0 (authEffect (pollingEffect w0)).

(** [auth.isAuthenticated] becomes [auth]: the auth effect runs, and the
    render its updates cause follows. *)
Definition authChange (auth : bool) (w : World) : World :=
  let w := setIsAuthenticated auth w in
  commit w (authEffect w).

(** *** The refresh API *)

Definition triggerRefresh (w : World) : World :=
  let w := clearTimer w in
  let w :=
    if isInitialLoading w then
      let w := setIsInitialLoading true w in
      let w := setAttemptsRef 0 w in
      setFetchAttempts 0 w
    else w in
  setRefreshKey (refreshKey w + 1) w.

Definition refreshIfNeeded (development : bool) (now : Z) (w : World)
  : World :=
  let timeSinceLastFetch := now - lastFetchTimeRef w in
  if timeSinceLastFetch >=? MIN_REFRESH_INTERVAL development
  then triggerRefresh w
  else w.

Definition handlePageChange (pg : Z) (w : World) : World :=
  setCurrentPage pg w.

(** [handleServersPerPageChange], the write to the session store apart. *)
Definition handleServersPerPageChange (lim : Z) (w : World) : World :=
  setCurrentPage 1 (setServersPerPage lim w).

(** *** Events *)

Inductive Event :=
| TriggerRefresh
| RefreshIfNeeded (development : bool) (now : Z)
| PageChange (pg : Z)
| ServersPerPageChange (lim : Z)
| AuthChange (auth : bool)
| Tick
| Settle (i : nat) (paginated full : Settled) (secondFirst : bool)
         (now : Z) (onLine : bool).

(** The timer fires: its callback is called. *)
Definition tick (w : World) : World :=
  match intervalRef w with
  | Some tm => call (callback tm) (timerPage tm) (timerLimit tm) w
  | None => w
  end.

(** The [i]-th call in flight gets its two answers and resumes. *)
Definition settle (i : nat) (r : AllSettled) (now : Z) (onLine : bool)
    (w : World) : World :=
  match inflight w !! i with
  | Some req => resume req r now onLine (setInflight (delete i (inflight w)) w)
  | None => w
  end.

(** One event: the handler, then the render it causes. *)
Definition step (ev : Event) (w : World) : World :=
  match ev with
  | TriggerRefresh => commit w (triggerRefresh w)
  | RefreshIfNeeded development now => commit w (refreshIfNeeded development now w)
  | PageChange pg => commit w (handlePageChange pg w)
  | ServersPerPageChange lim => commit w (handleServersPerPageChange lim w)
  | AuthChange auth => authChange auth w
  | Tick => tick w
  | Settle i paginated full secondFirst now onLine =>
      commit w (settle i (promiseAll paginated full secondFirst) now onLine w)
  end.

Definition run (evs : list Event) (w : World) : World :=
  fold_left (fun w ev => step ev w) evs w.

(** The engine's phase: stopped while the user is logged out, Startup
    with its count of failed attempts while [isInitialLoading], Normal
    after. *)
Inductive Phase := Stopped | Startup (attempt : Z) | Normal.

Definition phase (w : World) : Phase :=
  if negb (isAuthenticated w) then Stopped
  else if isInitialLoading w then Startup (attemptsRef w)
  else Normal.

(** *** Vocabulary of the statements *)

(** One of the two requests of a call succeeded and the other threw. *)
Definition exactlyOneRejected (paginated full : Settled) : bool :=
  match paginated, full with
  | Resolved _, Rejected _ => true
  | Rejected _, Resolved _ => true
  | _, _ => false
  end.

(** [w'] shows what the response handlers make of each request that
    succeeded, starting from [w]. *)
Definition subResultWritten (paginated full : Settled) (w w' : World) : Prop :=
  match paginated with
  | Resolved p =>
      servers w' = servers (handlePaginated p w)
      /\ pagination w' = pagination (handlePaginated p w)
  | Rejected _ => True
  end
  /\ match full with
     | Resolved a => allServers w' = allServers (handleAll a w)
     | Rejected _ => True
     end.

(** The two shapes the handlers accept for the paginated response. *)
Definition isEnvelope (v : Json) : bool :=
  truthy v && truthy (getProp v "success") && isArray (getProp v "data").

Definition isBareArray (v : Json) : bool :=
  truthy v && isArray v.

(** The test of the second branch of [fetchServers]' [catch]. *)
Definition isTransportError (err : JsError) : bool :=
  isTypeError err
  && (includes (message err) "NetworkError"
      || includes (message err) "Failed to fetch").

(** The request a call of [p] made in [w] puts in flight. *)
Definition requestOf (p : Poller) (w : World) : Request :=
  {| poller := p; page := currentPage w; limit := serversPerPage w;
     origin := refreshKey w |}.

(** *** Sample values and runs *)

Module Scenario.

Definition r1 : Json := JObj [("name", JStr "r1")].
Definition r2 : Json := JObj [("name", JStr "r2")].

Definition page1 : Json :=
  JObj [("page", JNum 1); ("limit", JNum 5); ("total", JNum 1);
        ("totalPages", JNum 1); ("hasNextPage", JBool false);
        ("hasPrevPage", JBool false)].

(** [{success: true, data: [r1], pagination: {...}}] *)
Definition envelope : Json :=
  JObj [("success", JBool true); ("data", JArr [r1]); ("pagination", page1)].

(** [{success: true, data: [r1, r2]}] *)
Definition fullEnvelope : Json :=
  JObj [("success", JBool true); ("data", JArr [r1; r2])].

(** [{success: false, message: "boom"}] *)
Definition refusal : Json :=
  JObj [("success", JBool false); ("message", JStr "boom")].

(** What [fetch] throws when the backend cannot be reached. *)
Definition failedToFetch : JsError :=
  {| isTypeError := true; message := "Failed to fetch" |}.

Definition ok : Event :=
  Settle 0 (Resolved envelope) (Resolved fullEnvelope) false 1000 true.

Definition failure : Event :=
  Settle 0 (Rejected failedToFetch) (Rejected failedToFetch) false 1000 true.

(** Logged in at the first render: the Startup phase, two calls of
    [fetchInitialData] in flight (one per run of the polling effect). *)
Definition started : World := mount true 5.

(** The first call succeeded: Normal polling. *)
Definition polling : World := run [ok] started.

(** The events that lead to the last attempt of a Startup episode: the
    two calls of the first render fail, then 57 times the timer fires
    and the call fails, then the timer fires once more. *)
Definition fiftyNineFailures : list Event :=
  [failure; failure] ++ concat (repeat [Tick; failure] 57) ++ [Tick].

(** Startup with 59 failed attempts and one call in flight; the state
    [fiftyNineFailures] leads to. *)
Definition lastChance : World :=
  {| servers := []; allServers := [];
     error := Some "errors.initialStartup"; refreshKey := 1;
     isInitialLoading := true; fetchAttempts := 59; pagination := None;
     currentPage := 1; serversPerPage := 5;
     intervalRef :=
       Some {| callback := FetchInitialData; timerPage := 1; timerLimit := 5;
               delay := 3000 |};
     attemptsRef := 59; lastFetchTimeRef := 0; isAuthenticated := true;
     inflight :=
       [{| poller := FetchInitialData; page := 1; limit := 5; origin := 1 |}]
  |}.

End Scenario.

End Provider.

(* ===================================================================== *)
(** ** The keyed local store *)
(* ===================================================================== *)

Module LocalStorage.
Import SessionStorage.

(** [window.localStorage], or no [window] at all. *)
Definition Window := option (gmap string string).

Section Helpers.
Context {N : JsNumber}.

Definition getLocalNumber (window : Window) (key : string) (fallback : number)
  : number :=
  match window with
  | None => fallback
  | Some localStorage =>
      let stored := localStorage !! key in
      if falsyItem stored then fallback
      else
        match stored with
        | None => fallback
        | Some s =>
            let parsed := toNumber s in
            if isFinite parsed && gt0 parsed then parsed else fallback
        end
  end.

Definition setLocalNumber (window : Window) (key : string) (value : number)
  : Window :=
  match window with
  | None => None
  | Some localStorage =>
      if negb (isFinite value) then Some localStorage
      else Some (<[key := toString value]> localStorage)
  end.

End Helpers.

End LocalStorage.

(* ===================================================================== *)
(** ** The provider's server operations *)
(* ===================================================================== *)

Module ProviderHandlers.
Import Provider.

(** What a [catch] receives: its [message] when it is an
    [instanceof Error], and what [String(err)] gives. *)
Record Thrown := { errorMessage : option string; rendered : string }.

(** [err instanceof Error ? err.message : String(err)] *)
Definition thrownText (err : Thrown) : string :=
  match errorMessage err with
  | Some m => m
  | None => rendered err
  end.

(** How an awaited request ends. *)
Inductive Answer :=
| Answered (result : Json)
| Threw (err : Thrown).

(** [result?.message || fallback]; the [message] of an [ApiResponse] is
    declared [string | undefined]. *)
Definition messageOr (result : Json) (fallback : string) : string :=
  match getProp result "message" with
  | JStr s => if String.eqb s "" then fallback else s
  | _ => fallback
  end.

(** [!result || !result.success] *)
Definition refused (result : Json) : bool :=
  negb (truthy result) || negb (truthy (getProp result "success")).

(** [triggerRefresh] as a closure holds it: [loading] is the
    [isInitialLoading] of the render that created it. *)
Definition triggerRefreshFrom (loading : bool) (w : World) : World :=
  let w := clearTimer w in
  let w :=
    if loading then
      let w := setIsInitialLoading true w in
      let w := setAttemptsRef 0 w in
      setFetchAttempts 0 w
    else w in
  setRefreshKey (refreshKey w + 1) w.

Definition handleServerAdd (w : World) : World :=
  setRefreshKey (refreshKey w + 1) w.

(** [handleServerRemove] from its [await] on, with the boolean it
    returns.  The error holds the key given to [t], as elsewhere. *)
Definition handleServerRemove (a : Answer) (w : World) : World * bool :=
  match a with
  | Answered result =>
      if refused result
      then (setError (Some (messageOr result "server.deleteError")) w, false)
      else (setRefreshKey (refreshKey w + 1) w, true)
  | Threw err =>
      (setError (Some ("errors.general" ++ ": " ++ thrownText err)) w, false)
  end.

Definition handleServerToggle (a : Answer) (w : World) : World * bool :=
  match a with
  | Answered result =>
      if refused result
      then (setError (Some (messageOr result "server.toggleError")) w, false)
      else (setRefreshKey (refreshKey w + 1) w, true)
  | Threw err => (setError (Some (thrownText err)) w, false)
  end.

(** [handleServerReload] from its [await] on; [loading] is the
    [isInitialLoading] its [triggerRefresh] captured. *)
Definition handleServerReload (loading : bool) (a : Answer) (w : World)
  : World * bool :=
  match a with
  | Answered result =>
      if refused result
      then (setError (Some "server.reloadError") w, false)
      else (triggerRefreshFrom loading w, true)
  | Threw err => (setError (Some (thrownText err)) w, false)
  end.

(** [handleServerEdit] from its [await] on, with the object it returns
    ([None] for [null]). *)
Definition handleServerEdit (a : Answer) (w : World) : World * option Json :=
  match a with
  | Answered serverData =>
      if truthy serverData && truthy (getProp serverData "success")
         && truthy (getProp serverData "data")
      then
        let data := getProp serverData "data" in
        (w,
         Some (JObj [("name", getProp data "name");
                     ("status", getProp data "status");
                     ("tools",
                      if truthy (getProp data "tools")
                      then getProp data "tools" else JArr []);
                     ("config", getProp data "config")]))
      else (setError (Some "server.invalidConfig") w, None)
  | Threw err => (setError (Some (thrownText err)) w, None)
  end.

End ProviderHandlers.

(* ===================================================================== *)
(** ** Events, seen as a handler followed by a render *)
(* ===================================================================== *)

Module ProviderSteps.
Import Provider.

(** What an event does before the render that follows it. *)
Definition act (ev : Event) (w : World) : World :=
  match ev with
  | TriggerRefresh => triggerRefresh w
  | RefreshIfNeeded development now => refreshIfNeeded development now w
  | PageChange pg => handlePageChange pg w
  | ServersPerPageChange lim => handleServersPerPageChange lim w
  | AuthChange auth => authEffect (setIsAuthenticated auth w)
  | Tick => tick w
  | Settle i paginated full secondFirst now onLine =>
      settle i (promiseAll paginated full secondFirst) now onLine w
  end.

(** The attempt count shown is the one counted, and no counter is
    negative. *)
Definition countersAgree (w : World) : Prop :=
  fetchAttempts w = attemptsRef w /\ 0 <= attemptsRef w /\ 0 <= refreshKey w.

(** While [isInitialLoading]: nothing has been fetched, and only
    [fetchInitialData] is in flight or on the timer. *)
Definition quiet (w : World) : Prop :=
  isInitialLoading w = true ->
  servers w = [] /\ allServers w = [] /\ pagination w = None
  /\ lastFetchTimeRef w = 0
  /\ Forall (fun req => poller req = FetchInitialData) (inflight w)
  /\ (forall tm, intervalRef w = Some tm -> callback tm = FetchInitialData).

End ProviderSteps.

(* ===================================================================== *)
(** ** Everything that happens to the provider *)
(* ===================================================================== *)

Module ProviderSession.
Import Provider ProviderHandlers.

(** [refreshIfNeeded] as a closure holds it: the [triggerRefresh] it
    calls is the one of the render that created it. *)
Definition refreshIfNeededFrom (loading development : bool) (now : Z)
    (w : World) : World :=
  let timeSinceLastFetch := now - lastFetchTimeRef w in
  if timeSinceLastFetch >=? MIN_REFRESH_INTERVAL development
  then triggerRefreshFrom loading w
  else w.

(** The polling events, and what the consumers of the context do with
    the functions it gives them: the server operations when their
    request has settled, [setError], and a [triggerRefresh] or
    [refreshIfNeeded] kept from an earlier render.  [loading] is the
    [isInitialLoading] of the render that created the function. *)
Inductive Operation :=
| Polling (ev : Event)
| HeldRefresh (loading : bool)
| HeldRefreshIfNeeded (loading development : bool) (now : Z)
| ServerAdd
| ServerRemove (a : Answer)
| ServerToggle (a : Answer)
| ServerReload (loading : bool) (a : Answer)
| ServerEdit (a : Answer)
| SetError (msg : option string).

(** One operation, with the render that follows it. *)
Definition perform (op : Operation) (w : World) : World :=
  match op with
  | Polling ev => step ev w
  | HeldRefresh loading => commit w (triggerRefreshFrom loading w)
  | HeldRefreshIfNeeded loading development now =>
      commit w (refreshIfNeededFrom loading development now w)
  | ServerAdd => commit w (handleServerAdd w)
  | ServerRemove a => commit w (fst (handleServerRemove a w))
  | ServerToggle a => commit w (fst (handleServerToggle a w))
  | ServerReload loading a => commit w (fst (handleServerReload loading a w))
  | ServerEdit a => commit w (fst (handleServerEdit a w))
  | SetError msg => commit w (setError msg w)
  end.

Definition session (ops : list Operation) (w : World) : World :=
  fold_left (fun w op => perform op w) ops w.

(** The operation runs a [triggerRefresh] created while
    [isInitialLoading] was true. *)
Definition holdsStartupRefresh (op : Operation) : bool :=
  match op with
  | HeldRefresh loading => loading
  | HeldRefreshIfNeeded loading _ _ => loading
  | ServerReload loading _ => loading
  | _ => false
  end.

(** No [triggerRefresh] created during Startup polling runs after
    Startup polling has ended. *)
Fixpoint timely (ops : list Operation) (w : World) : bool :=
  match ops with
  | [] => true
  | op :: rest =>
      (negb (holdsStartupRefresh op) || isInitialLoading w)
      && timely rest (perform op w)
  end.

(** What an operation other than a polling event does before its
    render. *)
Definition handled (op : Operation) (w : World) : World :=
  match op with
  | Polling _ => w
  | HeldRefresh loading => triggerRefreshFrom loading w
  | HeldRefreshIfNeeded loading development now =>
      refreshIfNeededFrom loading development now w
  | ServerAdd => handleServerAdd w
  | ServerRemove a => fst (handleServerRemove a w)
  | ServerToggle a => fst (handleServerToggle a w)
  | ServerReload loading a => fst (handleServerReload loading a w)
  | ServerEdit a => fst (handleServerEdit a w)
  | SetError msg => setError msg w
  end.

End ProviderSession.

(* ===================================================================== *)
(** ** The activity page *)
(* ===================================================================== *)

Module ActivityPage.
Import Provider.

Definition STATUS_OPTIONS : list string := ["success"; "error"].

(** [STATUS_OPTIONS.includes(value)] *)
Definition isValidStatus (value : string) : bool :=
  existsb (String.eqb value) STATUS_OPTIONS.

(** The page's [useState] values that its handlers read or write.  An
    [ActivityFilter] is an object with optional text fields: a map from
    field name to text.  [itemsPerPage] is what [getLocalNumber] or
    [Number(e.target.value)] gave. *)
Record State := {
  activities : list Json;
  stats : option Json;
  filterOptions : option Json;
  pagination : option Json;
  currentPage : Z;
  itemsPerPage : SessionStorage.IntNumber;
  isLoading : bool;
  error : option string;
  appliedFilters : gmap string string;
  searchServer : string;
  searchTool : string;
  searchStatus : string;
  searchGroup : string;
  searchKeyName : string
}.

Definition setActivities (x : list Json) (st : State) : State :=
  {| activities := x; stats := stats st; filterOptions := filterOptions st;
     pagination := pagination st; currentPage := currentPage st;
     itemsPerPage := itemsPerPage st; isLoading := isLoading st;
     error := error st; appliedFilters := appliedFilters st;
     searchServer := searchServer st; searchTool := searchTool st;
     searchStatus := searchStatus st; searchGroup := searchGroup st;
     searchKeyName := searchKeyName st |}.

Definition setStats (x : option Json) (st : State) : State :=
  {| activities := activities st; stats := x;
     filterOptions := filterOptions st; pagination := pagination st;
     currentPage := currentPage st; itemsPerPage := itemsPerPage st;
     isLoading := isLoading st; error := error st;
     appliedFilters := appliedFilters st; searchServer := searchServer st;
     searchTool := searchTool st; searchStatus := searchStatus st;
     searchGroup := searchGroup st; searchKeyName := searchKeyName st |}.

Definition setFilterOptions (x : option Json) (st : State) : State :=
  {| activities := activities st; stats := stats st; filterOptions := x;
     pagination := pagination st; currentPage := currentPage st;
     itemsPerPage := itemsPerPage st; isLoading := isLoading st;
     error := error st; appliedFilters := appliedFilters st;
     searchServer := searchServer st; searchTool := searchTool st;
     searchStatus := searchStatus st; searchGroup := searchGroup st;
     searchKeyName := searchKeyName st |}.

Definition setPagination (x : option Json) (st : State) : State :=
  {| activities := activities st; stats := stats st;
     filterOptions := filterOptions st; pagination := x;
     currentPage := currentPage st; itemsPerPage := itemsPerPage st;
     isLoading := isLoading st; error := error st;
     appliedFilters := appliedFilters st; searchServer := searchServer st;
     searchTool := searchTool st; searchStatus := searchStatus st;
     searchGroup := searchGroup st; searchKeyName := searchKeyName st |}.

Definition setCurrentPage (x : Z) (st : State) : State :=
  {| activities := activities st; stats := stats st;
     filterOptions := filterOptions st; pagination := pagination st;
     currentPage := x; itemsPerPage := itemsPerPage st;
     isLoading := isLoading st; error := error st;
     appliedFilters := appliedFilters st; searchServer := searchServer st;
     searchTool := searchTool st; searchStatus := searchStatus st;
     searchGroup := searchGroup st; searchKeyName := searchKeyName st |}.


Definition setIsLoading (x : bool) (st : State) : State :=
  {| activities := activities st; stats := stats st;
     filterOptions := filterOptions st; pagination := pagination st;
     currentPage := currentPage st; itemsPerPage := itemsPerPage st;
     isLoading := x; error := error st;
     appliedFilters := appliedFilters st; searchServer := searchServer st;
     searchTool := searchTool st; searchStatus := searchStatus st;
     searchGroup := searchGroup st; searchKeyName := searchKeyName st |}.

Definition setError (x : option string) (st : State) : State :=
  {| activities := activities st; stats := stats st;
     filterOptions := filterOptions st; pagination := pagination st;
     currentPage := currentPage st; itemsPerPage := itemsPerPage st;
     isLoading := isLoading st; error := x;
     appliedFilters := appliedFilters st; searchServer := searchServer st;
     searchTool := searchTool st; searchStatus := searchStatus st;
     searchGroup := searchGroup st; searchKeyName := searchKeyName st |}.

Definition setAppliedFilters (x : gmap string string) (st : State) : State :=
  {| activities := activities st; stats := stats st;
     filterOptions := filterOptions st; pagination := pagination st;
     currentPage := currentPage st; itemsPerPage := itemsPerPage st;
     isLoading := isLoading st; error := error st; appliedFilters := x;
     searchServer := searchServer st; searchTool := searchTool st;
     searchStatus := searchStatus st; searchGroup := searchGroup st;
     searchKeyName := searchKeyName st |}.

Definition setSearchServer (x : string) (st : State) : State :=
  {| activities := activities st; stats := stats st;
     filterOptions := filterOptions st; pagination := pagination st;
     currentPage := currentPage st; itemsPerPage := itemsPerPage st;
     isLoading := isLoading st; error := error st;
     appliedFilters := appliedFilters st; searchServer := x;
     searchTool := searchTool st; searchStatus := searchStatus st;
     searchGroup := searchGroup st; searchKeyName := searchKeyName st |}.

Definition setSearchTool (x : string) (st : State) : State :=
  {| activities := activities st; stats := stats st;
     filterOptions := filterOptions st; pagination := pagination st;
     currentPage := currentPage st; itemsPerPage := itemsPerPage st;
     isLoading := isLoading st; error := error st;
     appliedFilters := appliedFilters st; searchServer := searchServer st;
     searchTool := x; searchStatus := searchStatus st;
     searchGroup := searchGroup st; searchKeyName := searchKeyName st |}.

Definition setSearchStatus (x : string) (st : State) : State :=
  {| activities := activities st; stats := stats st;
     filterOptions := filterOptions st; pagination := pagination st;
     currentPage := currentPage st; itemsPerPage := itemsPerPage st;
     isLoading := isLoading st; error := error st;
     appliedFilters := appliedFilters st; searchServer := searchServer st;
     searchTool := searchTool st; searchStatus := x;
     searchGroup := searchGroup st; searchKeyName := searchKeyName st |}.

Definition setSearchGroup (x : string) (st : State) : State :=
  {| activities := activities st; stats := stats st;
     filterOptions := filterOptions st; pagination := pagination st;
     currentPage := currentPage st; itemsPerPage := itemsPerPage st;
     isLoading := isLoading st; error := error st;
     appliedFilters := appliedFilters st; searchServer := searchServer st;
     searchTool := searchTool st; searchStatus := searchStatus st;
     searchGroup := x; searchKeyName := searchKeyName st |}.

Definition setSearchKeyName (x : string) (st : State) : State :=
  {| activities := activities st; stats := stats st;
     filterOptions := filterOptions st; pagination := pagination st;
     currentPage := currentPage st; itemsPerPage := itemsPerPage st;
     isLoading := isLoading st; error := error st;
     appliedFilters := appliedFilters st; searchServer := searchServer st;
     searchTool := searchTool st; searchStatus := searchStatus st;
     searchGroup := searchGroup st; searchKeyName := x |}.

(** Truthiness of a text field. *)
Definition filled (s : string) : bool := negb (String.eqb s "").

Definition handleSearch (st : State) : State :=
  let filters : gmap string string := ∅ in
  let filters :=
    if filled (searchServer st)
    then <["server" := searchServer st]> filters else filters in
  let filters :=
    if filled (searchTool st)
    then <["tool" := searchTool st]> filters else filters in
  let filters :=
    if filled (searchStatus st) && isValidStatus (searchStatus st)
    then <["status" := searchStatus st]> filters else filters in
  let filters :=
    if filled (searchGroup st)
    then <["group" := searchGroup st]> filters else filters in
  let filters :=
    if filled (searchKeyName st)
    then <["keyName" := searchKeyName st]> filters else filters in
  setCurrentPage 1 (setAppliedFilters filters st).

Definition handleClearFilters (st : State) : State :=
  let st := setSearchServer "" st in
  let st := setSearchTool "" st in
  let st := setSearchStatus "" st in
  let st := setSearchGroup "" st in
  let st := setSearchKeyName "" st in
  let st := setAppliedFilters ∅ st in
  setCurrentPage 1 st.

(** What [await Promise.all] of the three requests of [fetchData]
    gives: the three values, or a rejection. *)
Inductive Fetched :=
| FetchedAll (activitiesRes statsRes optionsRes : Json)
| FetchFailed.

(** [fetchData] up to its [await]. *)
Definition fetchData_begin (st : State) : State :=
  setError None (setIsLoading true st).

(** [fetchData] from its [await] on, [finally] included. *)
Definition fetchData_settled (r : Fetched) (st : State) : State :=
  let st :=
    match r with
    | FetchedAll activitiesRes statsRes optionsRes =>
        let st :=
          if truthy (getProp activitiesRes "success")
             && isArray (getProp activitiesRes "data")
          then
            let st := setActivities (arrayItems (getProp activitiesRes "data")) st in
            if truthy (getProp activitiesRes "pagination")
            then setPagination (Some (getProp activitiesRes "pagination")) st
            else st
          else st in
        let st :=
          if truthy (getProp statsRes "success")
             && truthy (getProp statsRes "data")
          then setStats (Some (getProp statsRes "data")) st
          else st in
        if truthy (getProp optionsRes "success")
           && truthy (getProp optionsRes "data")
        then setFilterOptions (Some (getProp optionsRes "data")) st
        else st
    | FetchFailed => setError (Some "activity.fetchError") st
    end in
  setIsLoading false st.

(** The two ends of the range shown under the table, for a pagination
    [{page, limit, total}]. *)
Definition rangeStart (page limit : Z) : Z := (page - 1) * limit + 1.

Definition rangeEnd (page limit total : Z) : Z := Z.min (page * limit) total.

(** A page with a search typed in: a server name and a status that is
    not one of [STATUS_OPTIONS]. *)
Definition sample : State :=
  {| activities := []; stats := None; filterOptions := None;
     pagination := None; currentPage := 4;
     itemsPerPage := SessionStorage.NFin 10; isLoading := false;
     error := None; appliedFilters := ∅;
     searchServer := "github"; searchTool := ""; searchStatus := "pending";
     searchGroup := ""; searchKeyName := "" |}.

End ActivityPage.
(* ===================================================================== *)
(** ** Properties of the session store *)
(* ===================================================================== *)

Module SessionStorageFacts.
Import SessionStorage.

Lemma to_int_pos_not_nil (z : Z) :
  0 < z -> Z.to_int z <> Pos Nil /\ Z.to_int z <> Neg Nil.
Proof.
  intros Hz. destruct z as [|p|p]; try lia.
  split; [|discriminate].
  cbn. intros [= Hp].
  pose proof (DecimalPos.Unsigned.of_to p) as Hof.
  rewrite Hp in Hof. discriminate Hof.
Qed.

Lemma int_roundtrip (v : IntNumber) :
  int_isFinite v = true -> int_gt0 v = true -> int_toNumber (int_toString v) = v.
Proof.
  destruct v as [z| |b]; cbn; try discriminate.
  intros _ Hz. apply Z.ltb_lt in Hz.
  destruct (to_int_pos_not_nil z Hz) as [Hp Hn].
  unfold int_toNumber. rewrite NilZero.isi by assumption.
  now rewrite DecimalZ.of_to.
Qed.

#[export] Instance IntNumber_JsNumber : JsNumber := {|
  number := IntNumber;
  isFinite := int_isFinite;
  gt0 := int_gt0;
  toString := int_toString;
  toNumber := int_toNumber;
  toNumber_toString := int_roundtrip;
  toNumber_empty := eq_refl
|}.

Section Laws.
Context {N : JsNumber}.

Lemma toString_nonempty (v : number) :
  isFinite v = true -> gt0 v = true -> toString v <> "".
Proof.
  intros Hfin Hpos Hempty.
  pose proof (toNumber_toString v Hfin Hpos) as Hback.
  rewrite Hempty in Hback. rewrite <- Hback in Hpos.
  rewrite toNumber_empty in Hpos. discriminate.
Qed.

Lemma getSessionNumber_no_window (k : string) (d : number) :
  getSessionNumber None k d = d.
Proof. reflexivity. Qed.

Lemma getSessionNumber_missing (store : gmap string string) (k : string)
    (d : number) :
  store !! k = None -> getSessionNumber (Some store) k d = d.
Proof. intros Hk. unfold getSessionNumber. now rewrite Hk. Qed.

Lemma getSessionNumber_stored (store : gmap string string) (k s : string)
    (d : number) :
  store !! k = Some s -> s <> "" ->
  getSessionNumber (Some store) k d =
  if isFinite (toNumber s) && gt0 (toNumber s) then toNumber s else d.
Proof.
  intros Hk Hs. unfold getSessionNumber. rewrite Hk. cbn.
  destruct (decide (s = "")); [contradiction | reflexivity].
Qed.

(** C10. In a browser, a finite value [v > 0] written by
    [setSessionNumber] under a key is what [getSessionNumber] reads
    back under that key, whatever the fallback; and when the text
    stored under the key does not parse to a finite positive number,
    [getSessionNumber] returns the fallback. *)
Theorem session_number_roundtrip (store : gmap string string)
    (k s : string) (v d : number) :
  (isFinite v = true -> gt0 v = true ->
   getSessionNumber (setSessionNumber (Some store) k v) k d = v)
  /\ (store !! k = Some s ->
      isFinite (toNumber s) && gt0 (toNumber s) = false ->
      getSessionNumber (Some store) k d = d).
Proof.
  split.
  - intros Hfin Hpos. unfold setSessionNumber. rewrite Hfin. cbn [negb].
    rewrite (getSessionNumber_stored _ k (toString v)).
    + rewrite (toNumber_toString v Hfin Hpos), Hfin, Hpos. reflexivity.
    + apply lookup_insert_eq.
    + now apply toString_nonempty.
  - intros Hk Hbad. unfold getSessionNumber. rewrite Hk.
    destruct (falsyItem (Some s)); [reflexivity |].
    now rewrite Hbad.
Qed.

End Laws.

(** The round trip on the integer instance: 20 servers per page are
    written over a stored ["many"], which itself reads as the
    fallback 5. *)
Lemma session_number_roundtrip_witness :
  let store : gmap string string := {[ "servers.serversPerPage" := "many" ]} in
  getSessionNumber
    (setSessionNumber (Some store) "servers.serversPerPage" (NFin 20))
    "servers.serversPerPage" (NFin 5) = NFin 20
  /\ getSessionNumber (Some store) "servers.serversPerPage" (NFin 5) = NFin 5.
Proof.
  intros store.
  destruct (session_number_roundtrip (N := IntNumber_JsNumber) store
              "servers.serversPerPage" "many" (NFin 20) (NFin 5))
    as [Hwrite Hread].
  split.
  - apply Hwrite; reflexivity.
  - apply Hread; [vm_compute; reflexivity | reflexivity].
Defined.

End SessionStorageFacts.

(* ===================================================================== *)
(** ** Properties of the provider *)
(* ===================================================================== *)

Module ProviderFacts.
Import Provider Provider.Scenario.
Local Open Scope list_scope.

(** Unfold the handlers down to record updates, then split on the
    tests they make. *)
Ltac handlers :=
  unfold resume, fetchInitialData, fetchServers, startNormalPolling,
    handlePaginated, handleAll, call, clearTimer in *.

Ltac split_tests :=
  repeat match goal with
    | |- context [match ?x with _ => _ end] => destruct x eqn:?; cbn in *
    end.

Ltac by_cases := handlers; cbn; split_tests; try congruence; auto.

(** *** The timer *)

Lemma clearTimer_intervalRef (w : World) : intervalRef (clearTimer w) = None.
Proof. unfold clearTimer. destruct (intervalRef w) eqn:E; [reflexivity | exact E]. Qed.

Lemma tick_without_timer (w : World) : intervalRef w = None -> tick w = w.
Proof. intros E. unfold tick. now rewrite E. Qed.

(** [clearTimer] touches [intervalRef] only. *)
Lemma clearTimer_fields (w : World) :
  sink (clearTimer w) = sink w
  /\ refreshKey (clearTimer w) = refreshKey w
  /\ isInitialLoading (clearTimer w) = isInitialLoading w
  /\ attemptsRef (clearTimer w) = attemptsRef w
  /\ fetchAttempts (clearTimer w) = fetchAttempts w
  /\ lastFetchTimeRef (clearTimer w) = lastFetchTimeRef w
  /\ isAuthenticated (clearTimer w) = isAuthenticated w
  /\ inflight (clearTimer w) = inflight w
  /\ currentPage (clearTimer w) = currentPage w
  /\ serversPerPage (clearTimer w) = serversPerPage w.
Proof. unfold clearTimer, sink. destruct (intervalRef w); cbn; auto 12. Qed.

(** *** The response handlers *)

Lemma handlePaginated_touches (p : Json) (w : World) :
  allServers (handlePaginated p w) = allServers w
  /\ error (handlePaginated p w) = error w
  /\ refreshKey (handlePaginated p w) = refreshKey w
  /\ isInitialLoading (handlePaginated p w) = isInitialLoading w
  /\ attemptsRef (handlePaginated p w) = attemptsRef w
  /\ lastFetchTimeRef (handlePaginated p w) = lastFetchTimeRef w
  /\ inflight (handlePaginated p w) = inflight w
  /\ intervalRef (handlePaginated p w) = intervalRef w.
Proof. by_cases; auto 10. Qed.

Lemma handlePaginated_invalid (p : Json) (w : World) :
  isEnvelope p = false -> isBareArray p = false ->
  servers (handlePaginated p w) = [] /\ pagination (handlePaginated p w) = None.
Proof.
  unfold isEnvelope, isBareArray, handlePaginated.
  intros -> ->. cbn. auto.
Qed.

Lemma handlePaginated_envelope (p : Json) (w : World) :
  isEnvelope p = true ->
  servers (handlePaginated p w) = arrayItems (getProp p "data")
  /\ pagination (handlePaginated p w) =
     if truthy (getProp p "pagination") then Some (getProp p "pagination")
     else None.
Proof.
  unfold isEnvelope, handlePaginated. intros ->.
  destruct (truthy (getProp p "pagination")); cbn; auto.
Qed.

Lemma handlePaginated_bare (p : Json) (w : World) :
  isEnvelope p = false -> isBareArray p = true ->
  servers (handlePaginated p w) = arrayItems p
  /\ pagination (handlePaginated p w) = None.
Proof.
  unfold isEnvelope, isBareArray, handlePaginated. intros -> ->. cbn. auto.
Qed.

(** The paginated list and the pagination written by [handlePaginated]
    do not depend on the state it starts from. *)
Lemma handlePaginated_servers_indep (p : Json) (w1 w2 : World) :
  servers (handlePaginated p w1) = servers (handlePaginated p w2)
  /\ pagination (handlePaginated p w1) = pagination (handlePaginated p w2).
Proof. by_cases. Qed.

Lemma handleAll_allServers_indep (a : Json) (w1 w2 : World) :
  allServers (handleAll a w1) = allServers (handleAll a w2).
Proof. by_cases. Qed.

Lemma handleAll_touches (a : Json) (w : World) :
  servers (handleAll a w) = servers w
  /\ pagination (handleAll a w) = pagination w
  /\ error (handleAll a w) = error w
  /\ refreshKey (handleAll a w) = refreshKey w
  /\ isInitialLoading (handleAll a w) = isInitialLoading w
  /\ attemptsRef (handleAll a w) = attemptsRef w
  /\ lastFetchTimeRef (handleAll a w) = lastFetchTimeRef w
  /\ inflight (handleAll a w) = inflight w
  /\ intervalRef (handleAll a w) = intervalRef w.
Proof. by_cases; auto 10. Qed.

(** *** A call that resumes after a rejection *)

Lemma promiseAll_one_rejected (paginated full : Settled) (secondFirst : bool) :
  exactlyOneRejected paginated full = true ->
  exists err, promiseAll paginated full secondFirst = AllRejected err.
Proof.
  destruct paginated as [p|e1], full as [a|e2]; cbn; try discriminate; eauto.
Qed.

(** The [catch] blocks leave the data and the time of the last fetch
    as they were. *)
Lemma resume_rejected_data (req : Request) (err : JsError) (now : Z)
    (onLine : bool) (w : World) :
  let w' := resume req (AllRejected err) now onLine w in
  servers w' = servers w /\ allServers w' = allServers w
  /\ pagination w' = pagination w
  /\ lastFetchTimeRef w' = lastFetchTimeRef w.
Proof. by_cases. Qed.

Lemma resume_rejected_error (req : Request) (err : JsError) (now : Z)
    (onLine : bool) (w : World) :
  error (resume req (AllRejected err) now onLine w) =
  Some match poller req with
       | FetchInitialData => startupErrorKey onLine err
       | FetchServers => normalErrorKey onLine err
       end.
Proof. by_cases. Qed.

Lemma fetchInitialData_rejected_attempts (pg lim : Z) (err : JsError)
    (now : Z) (onLine : bool) (w : World) :
  let w' := fetchInitialData pg lim (AllRejected err) now onLine w in
  attemptsRef w' = attemptsRef w + 1 /\ fetchAttempts w' = attemptsRef w + 1
  /\ isInitialLoading w' =
     if attemptsRef w + 1 >=? CONFIG.startup.maxAttempts then false
     else isInitialLoading w.
Proof. by_cases. Qed.

(** *** A call that resumes with both answers *)

Lemma resume_resolved_data (req : Request) (p a : Json) (now : Z)
    (onLine : bool) (w : World) :
  let w' := resume req (AllResolved p a) now onLine w in
  servers w' = servers (handlePaginated p w)
  /\ pagination w' = pagination (handlePaginated p w)
  /\ allServers w' = allServers (handleAll a w)
  /\ lastFetchTimeRef w' = now.
Proof. by_cases. Qed.


(** *** Renders *)

(** The polling effect and its cleanup leave the data, the error, the
    time of the last fetch and their own dependencies alone. *)
Lemma pollingEffect_keeps (w : World) :
  let w' := pollingEffect w in
  sink w' = sink w
  /\ lastFetchTimeRef w' = lastFetchTimeRef w
  /\ refreshKey w' = refreshKey w
  /\ isInitialLoading w' = isInitialLoading w
  /\ isAuthenticated w' = isAuthenticated w.
Proof. unfold pollingEffect, sink. by_cases. Qed.

Lemma commit_keeps (prev w : World) :
  let w' := commit prev w in
  sink w' = sink w
  /\ lastFetchTimeRef w' = lastFetchTimeRef w
  /\ refreshKey w' = refreshKey w
  /\ isInitialLoading w' = isInitialLoading w
  /\ isAuthenticated w' = isAuthenticated w.
Proof.
  unfold commit. destruct (sameDeps prev w); [cbn; auto |].
  destruct (pollingEffect_keeps (clearTimer w)) as (Hs & Ht & Hk & Hl & Ha).
  destruct (clearTimer_fields w) as (Hs' & Hk' & Hl' & _ & _ & Ht' & Ha' & _).
  cbn. rewrite Hs, Ht, Hk, Hl, Ha. auto.
Qed.

Lemma sink_fields (w w' : World) :
  sink w' = sink w ->
  servers w' = servers w /\ allServers w' = allServers w
  /\ pagination w' = pagination w /\ error w' = error w.
Proof. unfold sink. intros [= -> -> -> ->]. auto. Qed.

Lemma sameDeps_refl (w : World) : sameDeps w w = true.
Proof.
  unfold sameDeps. rewrite !Z.eqb_refl, Bool.eqb_reflx. reflexivity.
Qed.

Lemma commit_same (w : World) : commit w w = w.
Proof. unfold commit. now rewrite sameDeps_refl. Qed.

(** *** Settling a call in flight *)

Lemma settle_resume (i : nat) (req : Request) (r : AllSettled) (now : Z)
    (onLine : bool) (w : World) :
  inflight w !! i = Some req ->
  settle i r now onLine w =
  resume req r now onLine (setInflight (delete i (inflight w)) w).
Proof. intros E. unfold settle. now rewrite E. Qed.

Lemma settle_missing (i : nat) (r : AllSettled) (now : Z) (onLine : bool)
    (w : World) :
  inflight w !! i = None -> settle i r now onLine w = w.
Proof. intros E. unfold settle. now rewrite E. Qed.

(** C1 (as amended). When exactly one of the two requests of a call
    throws, the call takes its [catch] path: the error of the sink is
    set to the message chosen for the rejection, a call of
    [fetchInitialData] counts one more failed attempt (and stays in the
    Startup phase below the bound), and neither the paginated list, nor
    the pagination, nor the full list, nor the time of the last fetch
    is written: the answer that did arrive is dropped. *)
Theorem partial_success_is_failure (i : nat) (req : Request)
    (paginated full : Settled) (secondFirst : bool) (now : Z) (onLine : bool)
    (w : World) :
  inflight w !! i = Some req ->
  exactlyOneRejected paginated full = true ->
  let w' := settle i (promiseAll paginated full secondFirst) now onLine w in
  let shown := step (Settle i paginated full secondFirst now onLine) w in
  servers w' = servers w /\ allServers w' = allServers w
  /\ pagination w' = pagination w
  /\ lastFetchTimeRef w' = lastFetchTimeRef w
  /\ (exists err,
        promiseAll paginated full secondFirst = AllRejected err
        /\ error w' =
           Some match poller req with
                | FetchInitialData => startupErrorKey onLine err
                | FetchServers => normalErrorKey onLine err
                end)
  /\ (poller req = FetchInitialData ->
      attemptsRef w' = attemptsRef w + 1
      /\ (attemptsRef w + 1 < CONFIG.startup.maxAttempts ->
          isInitialLoading w' = isInitialLoading w))
  /\ sink shown = sink w'.
Proof.
  intros Hreq Hone w' shown.
  destruct (promiseAll_one_rejected paginated full secondFirst Hone)
    as [err Herr].
  subst w' shown. cbn [step]. rewrite Herr.
  rewrite (settle_resume i req) by assumption.
  set (w1 := setInflight (delete i (inflight w)) w).
  destruct (resume_rejected_data req err now onLine w1) as (Hs & Ha & Hp & Ht).
  pose proof (fetchInitialData_rejected_attempts
                (page req) (limit req) err now onLine w1) as (Hn & _ & Hl).
  split; [exact Hs | split; [exact Ha | split; [exact Hp | split; [exact Ht |]]]].
  split; [| split].
  - exists err. split; [reflexivity | apply resume_rejected_error].
  - intros Hinit. unfold resume. rewrite Hinit.
    split; [exact Hn |].
    intros Hlt. rewrite Hl. cbn [attemptsRef w1 setInflight].
    destruct (Z.geb_spec (attemptsRef w + 1) CONFIG.startup.maxAttempts);
      [lia | reflexivity].
  - apply commit_keeps.
Qed.

Lemma partial_success_is_failure_witness :
  inflight started !! 0%nat = Some (requestOf FetchInitialData (initial true 5))
  /\ exactlyOneRejected (Resolved envelope) (Rejected failedToFetch) = true
  /\ let w' :=
       settle 0 (promiseAll (Resolved envelope) (Rejected failedToFetch) false)
         1000 true started in
     let shown :=
       step (Settle 0 (Resolved envelope) (Rejected failedToFetch)
               false 1000 true) started in
     servers w' = servers started /\ allServers w' = allServers started
     /\ pagination w' = pagination started
     /\ lastFetchTimeRef w' = lastFetchTimeRef started
     /\ (exists err,
           promiseAll (Resolved envelope) (Rejected failedToFetch) false
           = AllRejected err
           /\ error w' = Some (startupErrorKey true err))
     /\ (FetchInitialData = FetchInitialData ->
         attemptsRef w' = attemptsRef started + 1
         /\ (attemptsRef started + 1 < CONFIG.startup.maxAttempts ->
             isInitialLoading w' = isInitialLoading started))
     /\ sink shown = sink w'.
Proof.
  split; [reflexivity | split; [reflexivity |]].
  apply (partial_success_is_failure 0
           (requestOf FetchInitialData (initial true 5))
           (Resolved envelope) (Rejected failedToFetch) false 1000 true
           started); reflexivity.
Defined.

(** C1 as stated fails: the paginated request answered with [r1] and a
    page of pagination while the full-list request threw, and the sink
    shows neither. *)
Lemma partial_success_not_written :
  exactlyOneRejected (Resolved envelope) (Rejected failedToFetch) = true
  /\ servers (handlePaginated envelope started) = [r1]
  /\ ~ subResultWritten (Resolved envelope) (Rejected failedToFetch) started
         (step (Settle 0 (Resolved envelope) (Rejected failedToFetch)
                  false 1000 true) started).
Proof.
  split; [reflexivity | split; [reflexivity |]].
  intros [[Hservers _] _]. vm_compute in Hservers. discriminate Hservers.
Qed.

(** *** The time of the last fetch *)

(** The handlers that are not continuations of a call leave
    [lastFetchTimeRef] alone. *)
Lemma triggerRefresh_lastFetchTime (w : World) :
  lastFetchTimeRef (triggerRefresh w) = lastFetchTimeRef w.
Proof. unfold triggerRefresh. by_cases. Qed.

Lemma refreshIfNeeded_lastFetchTime (development : bool) (now : Z) (w : World) :
  lastFetchTimeRef (refreshIfNeeded development now w) = lastFetchTimeRef w.
Proof.
  unfold refreshIfNeeded. destruct (_ >=? _); [| reflexivity].
  apply triggerRefresh_lastFetchTime.
Qed.

Lemma authChange_lastFetchTime (auth : bool) (w : World) :
  lastFetchTimeRef (authChange auth w) = lastFetchTimeRef w.
Proof.
  unfold authChange.
  destruct (commit_keeps (setIsAuthenticated auth w)
              (authEffect (setIsAuthenticated auth w))) as (_ & -> & _).
  unfold authEffect. by_cases.
Qed.

Lemma tick_lastFetchTime (w : World) :
  lastFetchTimeRef (tick w) = lastFetchTimeRef w.
Proof. unfold tick. by_cases. Qed.

Lemma settle_lastFetchTime (i : nat) (r : AllSettled) (now : Z)
    (onLine : bool) (w : World) :
  lastFetchTimeRef (settle i r now onLine w) =
  match inflight w !! i, r with
  | Some _, AllResolved _ _ => now
  | _, _ => lastFetchTimeRef w
  end.
Proof.
  destruct (inflight w !! i) as [req|] eqn:Hreq.
  - rewrite (settle_resume i req) by assumption.
    destruct r as [p a | err].
    + apply resume_resolved_data.
    + destruct (resume_rejected_data req err now onLine
                  (setInflight (delete i (inflight w)) w))
        as (_ & _ & _ & ->).
      reflexivity.
  - now rewrite settle_missing.
Qed.

(** C7 (as amended). [lastFetchTimeRef] is written by one kind of
    event only, a call in flight receiving both answers, and it is
    written before the shape of the answers is looked at: it becomes
    [Date.now()] whatever the two values are.  A call of which a
    request throws, and every other event, leaves it unchanged. *)
Theorem lastFetchTime_written_on_resolution (ev : Event) (w : World) :
  lastFetchTimeRef (step ev w) =
  match ev with
  | Settle i paginated full secondFirst now _ =>
      match inflight w !! i, promiseAll paginated full secondFirst with
      | Some _, AllResolved _ _ => now
      | _, _ => lastFetchTimeRef w
      end
  | _ => lastFetchTimeRef w
  end.
Proof.
  destruct ev as [| development now | pg | lim | auth | | i paginated full sf now onLine];
    cbn [step].
  - destruct (commit_keeps w (triggerRefresh w)) as (_ & -> & _).
    apply triggerRefresh_lastFetchTime.
  - destruct (commit_keeps w (refreshIfNeeded development now w)) as (_ & -> & _).
    apply refreshIfNeeded_lastFetchTime.
  - destruct (commit_keeps w (handlePageChange pg w)) as (_ & -> & _).
    reflexivity.
  - destruct (commit_keeps w (handleServersPerPageChange lim w)) as (_ & -> & _).
    reflexivity.
  - apply authChange_lastFetchTime.
  - apply tick_lastFetchTime.
  - match goal with
    | |- lastFetchTimeRef (commit w ?x) = _ =>
        destruct (commit_keeps w x) as (_ & -> & _)
    end.
    apply settle_lastFetchTime.
Qed.

(** C7 as stated fails: in Normal polling a call receives
    [{success: false, ...}] twice, a shape the handlers reject, and the
    time of the last fetch moves from 1000 to 2000. *)
Lemma invalid_shape_updates_lastFetchTime :
  isEnvelope refusal = false /\ isBareArray refusal = false
  /\ inflight polling !! 1%nat = Some (requestOf FetchServers started)
  /\ lastFetchTimeRef polling = 1000
  /\ lastFetchTimeRef
       (step (Settle 1 (Resolved refusal) (Resolved refusal) false 2000 true)
          polling) = 2000.
Proof. vm_compute. repeat split; reflexivity. Qed.

(** *** Responses of an unexpected shape *)

(** C8 (as amended). When both requests answer and the paginated answer
    is neither a success envelope with an array [data] nor a bare
    array, the paginated list becomes empty and the pagination is
    cleared, and the call goes on as a success: the time of the last
    fetch is updated, [fetchServers] clears the error, and
    [fetchInitialData] ends the Startup phase without counting an
    attempt and without touching the error. *)
Theorem invalid_shape_handled_as_success (i : nat) (req : Request)
    (p a : Json) (secondFirst : bool) (now : Z) (onLine : bool) (w : World) :
  inflight w !! i = Some req ->
  isEnvelope p = false -> isBareArray p = false ->
  let w' :=
    settle i (promiseAll (Resolved p) (Resolved a) secondFirst) now onLine w in
  let shown :=
    step (Settle i (Resolved p) (Resolved a) secondFirst now onLine) w in
  servers w' = [] /\ pagination w' = None
  /\ lastFetchTimeRef w' = now
  /\ match poller req with
     | FetchServers => error w' = None
     | FetchInitialData =>
         isInitialLoading w' = false /\ attemptsRef w' = attemptsRef w
         /\ fetchAttempts w' = fetchAttempts w /\ error w' = error w
     end
  /\ servers shown = [] /\ pagination shown = None.
Proof.
  intros Hreq Henv Hbare w' shown.
  assert (Hdata : servers w' = [] /\ pagination w' = None).
  { subst w'. cbn [promiseAll]. rewrite (settle_resume i req) by assumption.
    set (w1 := setInflight (delete i (inflight w)) w).
    destruct (resume_resolved_data req p a now onLine w1) as (-> & -> & _).
    now apply handlePaginated_invalid. }
  destruct Hdata as [Hs Hp].
  split; [exact Hs | split; [exact Hp |]].
  split; [| split].
  - subst w'. cbn [promiseAll]. rewrite (settle_resume i req) by assumption.
    apply resume_resolved_data.
  - subst w'. cbn [promiseAll]. rewrite (settle_resume i req) by assumption.
    by_cases.
  - subst shown. cbn [step].
    match goal with
    | |- servers (commit w ?x) = _ /\ _ =>
        destruct (commit_keeps w x) as (Hsink & _);
        apply sink_fields in Hsink; destruct Hsink as (-> & _ & -> & _)
    end.
    split; assumption.
Qed.

Lemma invalid_shape_handled_as_success_witness :
  inflight polling !! 1%nat = Some (requestOf FetchServers started)
  /\ isEnvelope refusal = false /\ isBareArray refusal = false
  /\ let w' :=
       settle 1 (promiseAll (Resolved refusal) (Resolved refusal) false)
         2000 true polling in
     let shown :=
       step (Settle 1 (Resolved refusal) (Resolved refusal) false 2000 true)
         polling in
     servers w' = [] /\ pagination w' = None
     /\ lastFetchTimeRef w' = 2000
     /\ error w' = None
     /\ servers shown = [] /\ pagination shown = None.
Proof.
  split; [reflexivity | split; [reflexivity | split; [reflexivity |]]].
  apply (invalid_shape_handled_as_success 1
           (requestOf FetchServers started) refusal refusal false 2000 true
           polling); reflexivity.
Defined.

(** C8 as stated fails: the first call of a Startup episode receives
    [{success: false, ...}], and the engine goes to Normal polling with
    no attempt counted and no error, where a failure (the same call
    throwing) gives [Startup 1] and an error. *)
Lemma invalid_shape_not_a_failure :
  let invalid :=
    Settle 0 (Resolved refusal) (Resolved refusal) false 1000 true in
  isEnvelope refusal = false /\ isBareArray refusal = false
  /\ phase started = Startup 0
  /\ phase (step invalid started) = Normal
  /\ fetchAttempts (step invalid started) = 0
  /\ error (step invalid started) = None
  /\ phase (step failure started) = Startup 1
  /\ error (step failure started) = Some "errors.initialStartup".
Proof. vm_compute. repeat split; reflexivity. Qed.

(** *** Error messages *)

(** C9 (as amended). The message shown for a failed call depends on
    the polling function that made it.  Both look at connectivity
    first: off line, the message is [errors.network].  On line,
    [fetchServers] (Normal polling) shows [errors.serverConnection] for
    a [TypeError] whose message contains [NetworkError] or
    [Failed to fetch] and [errors.serverFetch] for any other failure,
    while [fetchInitialData] (Startup polling) shows
    [errors.initialStartup] for every failure, transport errors
    included. *)
Theorem failure_classification (i : nat) (req : Request)
    (paginated full : Settled) (secondFirst : bool) (err : JsError)
    (now : Z) (onLine : bool) (w : World) :
  inflight w !! i = Some req ->
  promiseAll paginated full secondFirst = AllRejected err ->
  error (step (Settle i paginated full secondFirst now onLine) w) =
  Some (if negb onLine then "errors.network"
        else match poller req with
             | FetchServers =>
                 if isTransportError err then "errors.serverConnection"
                 else "errors.serverFetch"
             | FetchInitialData => "errors.initialStartup"
             end).
Proof.
  intros Hreq Herr. cbn [step]. rewrite Herr.
  match goal with
  | |- error (commit w ?x) = _ =>
      destruct (commit_keeps w x) as (Hsink & _);
      apply sink_fields in Hsink; destruct Hsink as (_ & _ & _ & ->)
  end.
  rewrite (settle_resume i req) by assumption.
  rewrite resume_rejected_error.
  unfold startupErrorKey, normalErrorKey, isTransportError.
  destruct (poller req), onLine; reflexivity.
Qed.

Lemma failure_classification_witness :
  inflight polling !! 1%nat = Some (requestOf FetchServers started)
  /\ promiseAll (Rejected failedToFetch) (Resolved fullEnvelope) false
     = AllRejected failedToFetch
  /\ error (step (Settle 1 (Rejected failedToFetch) (Resolved fullEnvelope)
                    false 2000 true) polling)
     = Some "errors.serverConnection".
Proof.
  split; [reflexivity | split; [reflexivity |]].
  apply (failure_classification 1 (requestOf FetchServers started)
           (Rejected failedToFetch) (Resolved fullEnvelope) false
           failedToFetch 2000 true polling); reflexivity.
Defined.

(** C9 as stated fails: on line, the first call of a Startup episode
    fails with [TypeError: Failed to fetch], a transport error, and the
    message is that of a startup failure, not [errors.serverConnection]. *)
Lemma startup_transport_error_message :
  phase started = Startup 0
  /\ isTransportError failedToFetch = true
  /\ error (step (Settle 0 (Rejected failedToFetch) (Rejected failedToFetch)
                    false 1000 true) started)
     = Some "errors.initialStartup"
  /\ error (step (Settle 0 (Rejected failedToFetch) (Rejected failedToFetch)
                    false 1000 true) started)
     <> Some "errors.serverConnection".
Proof.
  vm_compute. repeat split; try reflexivity. discriminate.
Qed.

(** *** Manual refresh *)

Lemma triggerRefresh_intervalRef (w : World) :
  intervalRef (triggerRefresh w) = None.
Proof.
  unfold triggerRefresh.
  pose proof (clearTimer_intervalRef w) as Hc.
  destruct (isInitialLoading (clearTimer w)); cbn; exact Hc.
Qed.

Lemma triggerRefresh_fields (w : World) :
  let w' := triggerRefresh w in
  refreshKey w' = refreshKey w + 1
  /\ isInitialLoading w' = isInitialLoading w
  /\ currentPage w' = currentPage w
  /\ serversPerPage w' = serversPerPage w
  /\ isAuthenticated w' = isAuthenticated w
  /\ inflight w' = inflight w
  /\ sink w' = sink w.
Proof. unfold triggerRefresh, sink. by_cases; auto 10. Qed.

Lemma triggerRefresh_changes_deps (w : World) :
  sameDeps w (triggerRefresh w) = false.
Proof.
  unfold sameDeps. destruct (triggerRefresh_fields w) as (-> & _).
  replace (refreshKey w =? refreshKey w + 1) with false; [reflexivity |].
  symmetry. apply Z.eqb_neq. lia.
Qed.

(** The polling effect when the user is logged in: the polling function
    of the current phase is called at once and put on a timer. *)
Lemma pollingEffect_calls (w : World) :
  isAuthenticated w = true ->
  let p := if isInitialLoading w then FetchInitialData else FetchServers in
  let w' := pollingEffect w in
  inflight w' = inflight w ++ [requestOf p w]
  /\ intervalRef w' =
     Some {| callback := p; timerPage := currentPage w;
             timerLimit := serversPerPage w;
             delay := if isInitialLoading w
                      then CONFIG.startup.pollingInterval
                      else CONFIG.normal.pollingInterval |}.
Proof.
  intros Hauth. unfold pollingEffect, requestOf.
  rewrite Hauth. cbn [negb]. by_cases.
Qed.

(** It restarts the attempt count once [refreshKey] is positive. *)
Lemma pollingEffect_resets (w : World) :
  isAuthenticated w = true -> 0 < refreshKey w ->
  attemptsRef (pollingEffect w) = 0 /\ fetchAttempts (pollingEffect w) = 0.
Proof.
  intros Hauth Hkey. unfold pollingEffect.
  rewrite Hauth. cbn [negb].
  replace (refreshKey w >? 0) with true by (symmetry; apply Z.gtb_lt; lia).
  by_cases.
Qed.

(** The render after [triggerRefresh()]: one call of the polling
    function of the current phase. *)
Lemma step_triggerRefresh_calls (w : World) :
  isAuthenticated w = true ->
  let p := if isInitialLoading w then FetchInitialData else FetchServers in
  let w' := step TriggerRefresh w in
  refreshKey w' = refreshKey w + 1
  /\ isInitialLoading w' = isInitialLoading w
  /\ isAuthenticated w' = true
  /\ inflight w' =
     inflight w ++
       [{| poller := p; page := currentPage w; limit := serversPerPage w;
           origin := refreshKey w + 1 |}]
  /\ intervalRef w' =
     Some {| callback := p; timerPage := currentPage w;
             timerLimit := serversPerPage w;
             delay := if isInitialLoading w
                      then CONFIG.startup.pollingInterval
                      else CONFIG.normal.pollingInterval |}.
Proof.
  intros Hauth p w'. subst w' p. cbn [step]. unfold commit.
  rewrite triggerRefresh_changes_deps.
  set (h := triggerRefresh w).
  destruct (triggerRefresh_fields w) as (Hk & Hl & Hpg & Hlim & Ha & Hin & _).
  fold h in Hk, Hl, Hpg, Hlim, Ha, Hin.
  destruct (clearTimer_fields h)
    as (_ & Hk' & Hl' & _ & _ & _ & Ha' & Hin' & Hpg' & Hlim').
  destruct (pollingEffect_keeps (clearTimer h)) as (_ & _ & Hk2 & Hl2 & Ha2).
  destruct (pollingEffect_calls (clearTimer h)) as (Hreq & Htm);
    [congruence |].
  split; [congruence | split; [congruence | split; [congruence |]]].
  split.
  - rewrite Hreq. unfold requestOf.
    rewrite Hin', Hin, Hl', Hl, Hpg', Hpg, Hlim', Hlim, Hk', Hk. reflexivity.
  - rewrite Htm, Hl', Hl, Hpg', Hpg, Hlim', Hlim. reflexivity.
Qed.

(** C2 (as amended). While the user is logged in, [triggerRefresh()]
    cancels the pending timer and increments [refreshKey]; the render
    that follows resets the attempt count to 0 and restarts polling in
    the phase the engine is in, with an immediate call: from Startup a
    fresh [Startup 0] episode, from Normal the engine stays in Normal
    and calls [fetchServers]. *)
Theorem triggerRefresh_restarts_current_phase (w : World) :
  isAuthenticated w = true -> 0 <= refreshKey w ->
  let p := if isInitialLoading w then FetchInitialData else FetchServers in
  let w' := step TriggerRefresh w in
  intervalRef (triggerRefresh w) = None
  /\ refreshKey w' = refreshKey w + 1
  /\ attemptsRef w' = 0 /\ fetchAttempts w' = 0
  /\ phase w' = (if isInitialLoading w then Startup 0 else Normal)
  /\ inflight w' =
     inflight w ++
       [{| poller := p; page := currentPage w; limit := serversPerPage w;
           origin := refreshKey w + 1 |}]
  /\ intervalRef w' =
     Some {| callback := p; timerPage := currentPage w;
             timerLimit := serversPerPage w;
             delay := if isInitialLoading w
                      then CONFIG.startup.pollingInterval
                      else CONFIG.normal.pollingInterval |}.
Proof.
  intros Hauth Hkey p w'.
  destruct (step_triggerRefresh_calls w Hauth) as (Hk & Hl & Ha & Hin & Htm).
  fold w' in Hk, Hl, Ha, Hin, Htm.
  assert (Hreset : attemptsRef w' = 0 /\ fetchAttempts w' = 0).
  { subst w'. cbn [step]. unfold commit.
    rewrite triggerRefresh_changes_deps.
    set (h := triggerRefresh w).
    destruct (triggerRefresh_fields w) as (Hk0 & _ & _ & _ & Ha0 & _).
    fold h in Hk0, Ha0.
    destruct (clearTimer_fields h) as (_ & Hk1 & _ & _ & _ & _ & Ha1 & _).
    apply pollingEffect_resets; [congruence | lia]. }
  destruct Hreset as [Hn Hf].
  split; [apply triggerRefresh_intervalRef |].
  split; [exact Hk | split; [exact Hn | split; [exact Hf |]]].
  split; [| split; [exact Hin | exact Htm]].
  unfold phase. rewrite Ha, Hl, Hn. reflexivity.
Qed.

Lemma triggerRefresh_restarts_current_phase_witness :
  isAuthenticated polling = true /\ 0 <= refreshKey polling
  /\ let w' := step TriggerRefresh polling in
     intervalRef (triggerRefresh polling) = None
     /\ refreshKey w' = 2
     /\ attemptsRef w' = 0 /\ fetchAttempts w' = 0
     /\ phase w' = Normal
     /\ inflight w' =
        inflight polling ++
          [{| poller := FetchServers; page := 1; limit := 5; origin := 2 |}]
     /\ intervalRef w' =
        Some {| callback := FetchServers; timerPage := 1; timerLimit := 5;
                delay := 10000 |}.
Proof.
  split; [reflexivity | split; [vm_compute; discriminate |]].
  apply (triggerRefresh_restarts_current_phase polling);
    [reflexivity | vm_compute; discriminate].
Defined.

(** C2 as stated fails: in Normal polling, [triggerRefresh()] does not
    start a Startup episode; [isInitialLoading] stays false and the
    call made at once is one of [fetchServers]. *)
Lemma triggerRefresh_in_normal_stays_normal :
  phase polling = Normal
  /\ isInitialLoading (triggerRefresh polling) = false
  /\ phase (step TriggerRefresh polling) = Normal
  /\ phase (step TriggerRefresh polling) <> Startup 0
  /\ last (inflight (step TriggerRefresh polling)) =
     Some {| poller := FetchServers; page := 1; limit := 5; origin := 2 |}.
Proof.
  vm_compute. repeat split; try reflexivity. discriminate.
Qed.

(** *** Late responses *)

Lemma resume_ignores_origin (req : Request) (o : Z) (r : AllSettled)
    (now : Z) (onLine : bool) (w : World) :
  resume {| poller := poller req; page := page req; limit := limit req;
            origin := o |} r now onLine w
  = resume req r now onLine w.
Proof. reflexivity. Qed.

Lemma resume_sink_ignores_refreshKey (req : Request) (g : Z) (r : AllSettled)
    (now : Z) (onLine : bool) (w : World) :
  sink (resume req r now onLine (setRefreshKey g w))
  = sink (resume req r now onLine w).
Proof. unfold sink. destruct r; by_cases. Qed.

(** C3 (as amended). A response is applied whatever [refreshKey] was
    when its call was made and whatever it is when the response
    arrives: the continuation of a call reads neither, so what it
    writes to the sink is the same for every origin of the call and for
    every current [refreshKey].  When both requests answered, the sink
    shows what the response handlers make of the two values. *)
Theorem late_response_is_applied (i : nat) (req : Request) (o g : Z)
    (paginated full : Settled) (p a : Json) (secondFirst : bool) (now : Z)
    (onLine : bool) (w : World) :
  let arrives := Settle i paginated full secondFirst now onLine in
  let r := promiseAll paginated full secondFirst in
  resume {| poller := poller req; page := page req; limit := limit req;
            origin := o |} r now onLine w
  = resume req r now onLine w
  /\ sink (step arrives (setRefreshKey g w)) = sink (step arrives w)
  /\ (inflight w !! i = Some req ->
      let shown := step (Settle i (Resolved p) (Resolved a) secondFirst
                           now onLine) w in
      servers shown = servers (handlePaginated p w)
      /\ pagination shown = pagination (handlePaginated p w)
      /\ allServers shown = allServers (handleAll a w)).
Proof.
  intros arrives r. split; [reflexivity |]. split.
  - subst arrives. cbn [step].
    repeat match goal with
    | |- context [commit ?u ?x] =>
        let H := fresh in
        destruct (commit_keeps u x) as (H & _); rewrite H; clear H
    end.
    unfold settle. cbn [inflight setRefreshKey].
    destruct (inflight w !! i) as [rq|]; [| reflexivity].
    exact (resume_sink_ignores_refreshKey rq g r now onLine
             (setInflight (delete i (inflight w)) w)).
  - intros Hreq shown. subst shown. cbn [step promiseAll].
    match goal with
    | |- servers (commit w ?x) = _ /\ _ =>
        destruct (commit_keeps w x) as (Hsink & _);
        apply sink_fields in Hsink; destruct Hsink as (-> & -> & -> & _)
    end.
    rewrite (settle_resume i req) by assumption.
    set (w1 := setInflight (delete i (inflight w)) w).
    destruct (resume_resolved_data req p a now onLine w1) as (-> & -> & -> & _).
    destruct (handlePaginated_servers_indep p w1 w) as [-> ->].
    rewrite (handleAll_allServers_indep a w1 w). auto.
Qed.

Lemma late_response_is_applied_witness :
  let w := step TriggerRefresh started in
  inflight w !! 0%nat = Some (requestOf FetchInitialData (initial true 5))
  /\ let shown := step (Settle 0 (Resolved envelope) (Resolved fullEnvelope)
                          false 1000 true) w in
     servers shown = [r1] /\ pagination shown = Some page1
     /\ allServers shown = [r1; r2].
Proof.
  intros w. split; [reflexivity |].
  apply (late_response_is_applied 0
           (requestOf FetchInitialData (initial true 5)) 0 0
           (Resolved envelope) (Resolved fullEnvelope) envelope fullEnvelope
           false 1000 true w).
  reflexivity.
Defined.

(** C3 as stated fails: a call made at the first render, when
    [refreshKey] was 0, is still in flight after a manual refresh has
    brought [refreshKey] to 2; its response arrives and the sink shows
    it. *)
Lemma stale_response_mutates_sink :
  let w := step TriggerRefresh started in
  inflight w !! 0%nat = Some (requestOf FetchInitialData (initial true 5))
  /\ origin (requestOf FetchInitialData (initial true 5)) = 0
  /\ refreshKey w = 2
  /\ servers w = []
  /\ servers (step ok w) = [r1]
  /\ sink (step ok w) <> sink w.
Proof.
  vm_compute. repeat split; try reflexivity. discriminate.
Qed.

(** *** The first call of a phase *)

Lemma fetchInitialData_fallback (pg lim : Z) (err : JsError) (now : Z)
    (onLine : bool) (w : World) :
  CONFIG.startup.maxAttempts <= attemptsRef w + 1 ->
  let w' := fetchInitialData pg lim (AllRejected err) now onLine w in
  isInitialLoading w' = false
  /\ inflight w' =
     inflight w ++
       [{| poller := FetchServers; page := pg; limit := lim;
           origin := refreshKey w |}]
  /\ intervalRef w' =
     Some {| callback := FetchServers; timerPage := pg; timerLimit := lim;
             delay := CONFIG.normal.pollingInterval |}
  /\ refreshKey w' = refreshKey w
  /\ currentPage w' = currentPage w
  /\ serversPerPage w' = serversPerPage w
  /\ isAuthenticated w' = isAuthenticated w.
Proof.
  intros Hbound. unfold fetchInitialData. cbn.
  replace (attemptsRef w + 1 >=? CONFIG.startup.maxAttempts) with true
    by (symmetry; apply Z.geb_le; lia).
  by_cases; auto 10.
Qed.

(** C4 (as amended). Whenever the polling effect runs in the Startup
    phase it calls [fetchInitialData] at once, before any timer fires.
    When a call of [fetchInitialData] fails and the attempt bound is
    reached, [startNormalPolling()] is called with its default
    [immediate = true]: a call of [fetchServers] is made at once too,
    and the render that follows the change of [isInitialLoading] makes
    another. *)
Theorem startup_and_fallback_call_at_once (w v : World) (i : nat)
    (req : Request) (paginated full : Settled) (secondFirst : bool)
    (err : JsError) (now : Z) (onLine : bool) :
  (isAuthenticated w = true -> isInitialLoading w = true ->
   inflight (pollingEffect w) = inflight w ++ [requestOf FetchInitialData w])
  /\ (inflight v !! i = Some req -> poller req = FetchInitialData ->
      promiseAll paginated full secondFirst = AllRejected err ->
      CONFIG.startup.maxAttempts <= attemptsRef v + 1 ->
      let h := settle i (AllRejected err) now onLine v in
      isInitialLoading h = false
      /\ inflight h =
         delete i (inflight v) ++
           [{| poller := FetchServers; page := page req; limit := limit req;
               origin := refreshKey v |}]
      /\ (isAuthenticated v = true -> isInitialLoading v = true ->
          inflight (step (Settle i paginated full secondFirst now onLine) v)
          = inflight h ++ [requestOf FetchServers v])).
Proof.
  split.
  - intros Hauth Hload.
    destruct (pollingEffect_calls w Hauth) as [Hin _].
    now rewrite Hload in Hin.
  - intros Hreq Hinit Herr Hbound h.
    assert (Hh : h = fetchInitialData (page req) (limit req) (AllRejected err)
                       now onLine (setInflight (delete i (inflight v)) v)).
    { subst h. rewrite (settle_resume i req) by assumption.
      unfold resume. now rewrite Hinit. }
    destruct (fetchInitialData_fallback (page req) (limit req) err now onLine
                (setInflight (delete i (inflight v)) v) Hbound)
      as (Hl & Hin & _ & Hk & Hpg & Hlim & Ha).
    rewrite <- Hh in Hl, Hin, Hk, Hpg, Hlim, Ha. cbn in Hin, Hk, Hpg, Hlim, Ha.
    split; [exact Hl | split; [exact Hin |]].
    intros Hauth Hload. cbn [step]. rewrite Herr. fold h.
    unfold commit.
    replace (sameDeps v h) with false.
    2:{ unfold sameDeps. rewrite Hl, Hload, Hk, Z.eqb_refl. reflexivity. }
    destruct (clearTimer_fields h)
      as (_ & Hk' & Hl' & _ & _ & _ & Ha' & Hin' & Hpg' & Hlim').
    destruct (pollingEffect_calls (clearTimer h)) as [Hcall _];
      [congruence |].
    rewrite Hcall, Hin', Hl', Hl. unfold requestOf.
    rewrite Hpg', Hpg, Hlim', Hlim, Hk', Hk. reflexivity.
Qed.

Lemma startup_and_fallback_call_at_once_witness :
  let lost := requestOf FetchInitialData started in
  inflight (pollingEffect started) = inflight started ++ [lost]
  /\ inflight lastChance !! 0%nat = Some lost
  /\ CONFIG.startup.maxAttempts <= attemptsRef lastChance + 1
  /\ let h := settle 0 (AllRejected failedToFetch) 1000 true lastChance in
     isInitialLoading h = false
     /\ inflight h = [requestOf FetchServers started]
     /\ inflight (step failure lastChance)
        = [requestOf FetchServers started; requestOf FetchServers started].
Proof.
  intros lost.
  destruct (startup_and_fallback_call_at_once started lastChance 0 lost
              (Rejected failedToFetch) (Rejected failedToFetch) false
              failedToFetch 1000 true) as [Hfirst Hfall].
  split; [apply Hfirst; reflexivity |].
  split; [reflexivity |].
  split; [vm_compute; discriminate |].
  destruct Hfall as (Hl & Hin & Hstep);
    [reflexivity | reflexivity | reflexivity | vm_compute; discriminate |].
  cbn zeta. split; [exact Hl | split; [exact Hin |]].
  unfold failure. rewrite Hstep by reflexivity. rewrite Hin. reflexivity.
Defined.

(** [lastChance] is a state the component reaches. *)
Lemma lastChance_reached : run fiftyNineFailures started = lastChance.
Proof. vm_compute. reflexivity. Qed.

(** C4 as stated fails: the 60th attempt of a Startup episode fails;
    the handler itself has already made a call of [fetchServers] when
    it returns, and after the render two are in flight, where the one
    call in flight before has just been consumed. *)
Lemma fallback_fetches_immediately :
  phase lastChance = Startup 59
  /\ inflight lastChance = [requestOf FetchInitialData started]
  /\ inflight (settle 0 (AllRejected failedToFetch) 1000 true lastChance)
     = [requestOf FetchServers started]
  /\ phase (step failure lastChance) = Normal
  /\ inflight (step failure lastChance)
     = [requestOf FetchServers started; requestOf FetchServers started]
  /\ inflight (step failure lastChance) <> delete 0%nat (inflight lastChance).
Proof.
  vm_compute. repeat split; try reflexivity. discriminate.
Qed.

(** *** The session gate *)

(** Logging out: the timer is cancelled, so that no tick can follow,
    the two lists and the error are cleared; the effect has no
    [setPagination], and the pagination stays. *)
Lemma gate_off (w : World) :
  let w' := step (AuthChange false) w in
  intervalRef w' = None /\ tick w' = w'
  /\ servers w' = [] /\ allServers w' = [] /\ error w' = None
  /\ pagination w' = pagination w
  /\ phase w' = Stopped.
Proof.
  cbn [step]. unfold authChange.
  set (w0 := setIsAuthenticated false w).
  set (h := authEffect w0).
  assert (Hh : intervalRef h = None /\ servers h = [] /\ allServers h = []
               /\ error h = None /\ pagination h = pagination w
               /\ isAuthenticated h = false).
  { subst h w0. unfold authEffect. by_cases; auto 10. }
  destruct Hh as (Htm & Hs & Ha & He & Hp & Hauth).
  assert (Hc : commit w0 h = h).
  { unfold commit. destruct (sameDeps w0 h); [reflexivity |].
    unfold pollingEffect.
    destruct (clearTimer_fields h) as (_ & _ & _ & _ & _ & _ & -> & _).
    rewrite Hauth. cbn [negb]. unfold clearTimer. now rewrite Htm. }
  cbn zeta. rewrite Hc.
  split; [exact Htm | split; [now apply tick_without_timer |]].
  split; [exact Hs | split; [exact Ha | split; [exact He | split; [exact Hp |]]]].
  unfold phase. now rewrite Hauth.
Qed.

(** C5. The code at the failing input: the user logs out during Normal
    polling, the sink showing one server and its pagination.  Timer,
    lists and error are cleared; the pagination is still there. *)
Theorem gate_off_keeps_pagination :
  pagination polling = Some page1
  /\ let w' := step (AuthChange false) polling in
     intervalRef w' = None /\ tick w' = w'
     /\ servers w' = [] /\ allServers w' = [] /\ error w' = None
     /\ pagination w' = Some page1
     /\ pagination w' <> None.
Proof.
  split; [vm_compute; reflexivity |].
  destruct (gate_off polling) as (Htm & Htick & Hs & Ha & He & Hp & _).
  cbn zeta. rewrite Hp.
  split; [exact Htm | split; [exact Htick | split; [exact Hs |]]].
  split; [exact Ha | split; [exact He |]].
  split; [vm_compute; reflexivity | vm_compute; discriminate].
Qed.

(** A call of [fetchInitialData] in flight when the user logs out arms
    the Normal timer when its answers arrive, and that timer ticks. *)
Lemma late_answer_rearms_timer :
  let w := run [AuthChange false; ok] started in
  isAuthenticated w = false
  /\ intervalRef w =
     Some {| callback := FetchServers; timerPage := 1; timerLimit := 5;
             delay := 10000 |}
  /\ length (inflight (step Tick w)) = S (length (inflight w)).
Proof. vm_compute. repeat split; reflexivity. Qed.

(** *** Debounced refresh *)

Lemma triggerRefresh_moves (w : World) : triggerRefresh w <> w.
Proof.
  intros Heq. destruct (triggerRefresh_fields w) as (Hk & _).
  rewrite Heq in Hk. lia.
Qed.

Lemma refreshIfNeeded_due (development : bool) (now : Z) (w : World) :
  MIN_REFRESH_INTERVAL development <= now - lastFetchTimeRef w ->
  refreshIfNeeded development now w = triggerRefresh w.
Proof.
  intros Hdue. unfold refreshIfNeeded.
  destruct (Z.geb_spec (now - lastFetchTimeRef w)
              (MIN_REFRESH_INTERVAL development)); [reflexivity | lia].
Qed.

Lemma refreshIfNeeded_early (development : bool) (now : Z) (w : World) :
  now - lastFetchTimeRef w < MIN_REFRESH_INTERVAL development ->
  refreshIfNeeded development now w = w.
Proof.
  intros Hearly. unfold refreshIfNeeded.
  destruct (Z.geb_spec (now - lastFetchTimeRef w)
              (MIN_REFRESH_INTERVAL development)); [lia | reflexivity].
Qed.

Lemma step_refreshIfNeeded_due (development : bool) (now : Z) (w : World) :
  MIN_REFRESH_INTERVAL development <= now - lastFetchTimeRef w ->
  step (RefreshIfNeeded development now) w = step TriggerRefresh w.
Proof. intros Hdue. cbn [step]. now rewrite refreshIfNeeded_due. Qed.

Lemma step_triggerRefresh_lastFetchTime (w : World) :
  lastFetchTimeRef (step TriggerRefresh w) = lastFetchTimeRef w.
Proof.
  cbn [step]. destruct (commit_keeps w (triggerRefresh w)) as (_ & -> & _).
  apply triggerRefresh_lastFetchTime.
Qed.

(** When [refreshIfNeeded()] refreshes, and when it does nothing. *)
Lemma refreshIfNeeded_iff (development : bool) (now : Z) (w : World) :
  (refreshIfNeeded development now w = triggerRefresh w
   <-> MIN_REFRESH_INTERVAL development <= now - lastFetchTimeRef w)
  /\ (refreshIfNeeded development now w = w
      <-> now - lastFetchTimeRef w < MIN_REFRESH_INTERVAL development)
  /\ MIN_REFRESH_INTERVAL true = 5000 /\ MIN_REFRESH_INTERVAL false = 3000.
Proof.
  split; [| split; [| split; reflexivity]].
  - split; [| apply refreshIfNeeded_due].
    intros Heq.
    destruct (Z.le_gt_cases (MIN_REFRESH_INTERVAL development)
                (now - lastFetchTimeRef w)) as [Hdue | Hearly];
      [exact Hdue |].
    rewrite refreshIfNeeded_early in Heq by assumption.
    symmetry in Heq. now apply triggerRefresh_moves in Heq.
  - split; [| apply refreshIfNeeded_early].
    intros Heq.
    destruct (Z.le_gt_cases (MIN_REFRESH_INTERVAL development)
                (now - lastFetchTimeRef w)) as [Hdue | Hearly];
      [| exact Hearly].
    rewrite refreshIfNeeded_due in Heq by assumption.
    now apply triggerRefresh_moves in Heq.
Qed.

(** A call made less than [MIN_REFRESH_INTERVAL] after a call in
    flight received its two answers does nothing. *)
Lemma refreshIfNeeded_after_answer (development : bool) (now2 t : Z)
    (i : nat) (p a : Json) (secondFirst onLine : bool) (u : World) :
  is_Some (inflight u !! i) ->
  now2 - t < MIN_REFRESH_INTERVAL development ->
  let answered :=
    step (Settle i (Resolved p) (Resolved a) secondFirst t onLine) u in
  step (RefreshIfNeeded development now2) answered = answered.
Proof.
  intros [req Hreq] Hearly answered.
  assert (Ht : lastFetchTimeRef answered = t).
  { subst answered. cbn [step promiseAll].
    match goal with
    | |- lastFetchTimeRef (commit u ?x) = _ =>
        destruct (commit_keeps u x) as (_ & -> & _)
    end.
    rewrite settle_lastFetchTime, Hreq. reflexivity. }
  cbn [step]. rewrite refreshIfNeeded_early by (rewrite Ht; lia).
  apply commit_same.
Qed.

(** Neither [refreshIfNeeded] nor [triggerRefresh] records the time of
    the refresh: a second call, not earlier than a first one that
    refreshed, refreshes again. *)
Lemma refreshIfNeeded_again (development : bool) (now now2 : Z) (w : World) :
  now <= now2 ->
  MIN_REFRESH_INTERVAL development <= now - lastFetchTimeRef w ->
  refreshIfNeeded development now2 (refreshIfNeeded development now w)
  = triggerRefresh (triggerRefresh w)
  /\ refreshIfNeeded development now2
       (step (RefreshIfNeeded development now) w)
     = triggerRefresh (step (RefreshIfNeeded development now) w).
Proof.
  intros Hmono Hdue. split.
  - rewrite (refreshIfNeeded_due development now w Hdue).
    apply refreshIfNeeded_due. rewrite triggerRefresh_lastFetchTime. lia.
  - apply refreshIfNeeded_due.
    rewrite (step_refreshIfNeeded_due development now w Hdue).
    rewrite step_triggerRefresh_lastFetchTime. lia.
Qed.

(** C6. The code at the failing input: Normal polling, the last answer
    received at 1000; [refreshIfNeeded()] is called at 10000 and again
    at 10001, one millisecond later, and no answer arrives in between.
    The first call refreshes.  The second is not a no-op: it calls
    [triggerRefresh()] as well, whether the two calls are made in one
    task (one render after both: [refreshKey] has grown by two and one
    call of [fetchServers] is made) or in two (a render after each: two
    calls of [fetchServers] are made). *)
Theorem refreshIfNeeded_twice_refreshes_twice :
  let first := refreshIfNeeded false 10000 polling in
  let w1 := step (RefreshIfNeeded false 10000) polling in
  lastFetchTimeRef polling = 1000
  /\ 10001 - 10000 < MIN_REFRESH_INTERVAL false
  /\ first = triggerRefresh polling
  /\ refreshIfNeeded false 10001 first = triggerRefresh first
  /\ refreshIfNeeded false 10001 first <> first
  /\ refreshKey (refreshIfNeeded false 10001 first) = refreshKey polling + 2
  /\ length (inflight (commit polling (refreshIfNeeded false 10001 first)))
     = S (length (inflight polling))
  /\ refreshIfNeeded false 10001 w1 = triggerRefresh w1
  /\ length (inflight w1) = S (length (inflight polling))
  /\ length (inflight (step (RefreshIfNeeded false 10001) w1))
     = S (S (length (inflight polling))).
Proof.
  intros first w1.
  assert (Hdue : MIN_REFRESH_INTERVAL false <= 10000 - lastFetchTimeRef polling)
    by (vm_compute; discriminate).
  destruct (refreshIfNeeded_again false 10000 10001 polling ltac:(lia) Hdue)
    as [Hsame Hnext].
  pose proof (refreshIfNeeded_due false 10000 polling Hdue) as Hfirst.
  fold first in Hsame, Hfirst. fold w1 in Hnext.
  split; [vm_compute; reflexivity | split; [reflexivity |]].
  split; [exact Hfirst |].
  split; [rewrite Hsame, Hfirst; reflexivity |].
  split.
  { rewrite Hsame, Hfirst. apply triggerRefresh_moves. }
  split; [vm_compute; reflexivity |].
  split; [vm_compute; reflexivity |].
  split; [exact Hnext |].
  split; vm_compute; reflexivity.
Qed.

End ProviderFacts.

(* ===================================================================== *)
(** ** More on the two keyed stores *)
(* ===================================================================== *)

Module StorageFacts.
Import SessionStorage LocalStorage SessionStorageFacts.

(** The helpers of [localStorage.ts] are those of [sessionStorage.ts]
    applied to the other store. *)
Lemma getLocalNumber_eq `{JsNumber} (window : LocalStorage.Window)
    (k : string) (d : number) :
  getLocalNumber window k d = getSessionNumber window k d.
Proof. reflexivity. Qed.

Lemma setLocalNumber_eq `{JsNumber} (window : LocalStorage.Window)
    (k : string) (v : number) :
  setLocalNumber window k v = setSessionNumber window k v.
Proof. reflexivity. Qed.

Section Laws.
Context {N : JsNumber}.

Lemma get_after_write (store : gmap string string) (k : string)
    (v d : number) :
  isFinite v = true -> gt0 v = true ->
  getSessionNumber (Some (<[k := toString v]> store)) k d = v.
Proof.
  intros Hfin Hpos.
  rewrite (getSessionNumber_stored _ k (toString v)).
  - now rewrite (toNumber_toString v Hfin Hpos), Hfin, Hpos.
  - apply lookup_insert_eq.
  - now apply toString_nonempty.
Qed.

Lemma get_other_key (store : gmap string string) (k k' s : string)
    (d : number) :
  k <> k' ->
  getSessionNumber (Some (<[k := s]> store)) k' d
  = getSessionNumber (Some store) k' d.
Proof.
  intros Hne. unfold getSessionNumber.
  now rewrite lookup_insert_ne by assumption.
Qed.

Lemma getSessionNumber_fallback_or_positive_aux
    (window : SessionStorage.Window) (k : string) (d : number) :
  getSessionNumber window k d = d
  \/ (isFinite (getSessionNumber window k d) = true
      /\ gt0 (getSessionNumber window k d) = true).
Proof.
  unfold getSessionNumber.
  destruct window as [store|]; [| now left].
  destruct (store !! k) as [s|]; cbn; [| now left].
  destruct (decide (s = "")); [now left |].
  destruct (isFinite (toNumber s)) eqn:Hfin; [| now left].
  destruct (gt0 (toNumber s)) eqn:Hpos; [| now left].
  right. cbn. auto.
Qed.

(** X1. Whatever the store holds, [getSessionNumber] returns either
    the fallback it was given or a finite number greater than zero;
    [getLocalNumber] likewise. *)
Theorem getSessionNumber_fallback_or_positive (window : SessionStorage.Window)
    (k : string) (d : number) :
  (getSessionNumber window k d = d
   \/ (isFinite (getSessionNumber window k d) = true
       /\ gt0 (getSessionNumber window k d) = true))
  /\ (getLocalNumber window k d = d
      \/ (isFinite (getLocalNumber window k d) = true
          /\ gt0 (getLocalNumber window k d) = true)).
Proof.
  split; [| rewrite getLocalNumber_eq];
    apply getSessionNumber_fallback_or_positive_aux.
Qed.

(** X2. [setSessionNumber] under a key changes what is read under that
    key only: under any other key [getSessionNumber] returns what it
    returned before, whether the value written was finite or not. *)
Theorem setSessionNumber_other_key (window : SessionStorage.Window)
    (k k' : string) (v d : number) :
  k <> k' ->
  getSessionNumber (setSessionNumber window k v) k' d
  = getSessionNumber window k' d.
Proof.
  intros Hne. destruct window as [store|]; [| reflexivity].
  unfold setSessionNumber.
  destruct (isFinite v); cbn [negb]; [| reflexivity].
  now apply get_other_key.
Qed.

(** X3. A second write under the same key replaces the first when its
    value is finite and positive, and is dropped when its value is not
    finite ([NaN], an infinity): the first value is then still the one
    read. *)
Theorem setSessionNumber_twice (store : gmap string string) (k : string)
    (v1 v2 d : number) :
  isFinite v1 = true -> gt0 v1 = true ->
  let once := setSessionNumber (Some store) k v1 in
  (isFinite v2 = true -> gt0 v2 = true ->
   getSessionNumber (setSessionNumber once k v2) k d = v2)
  /\ (isFinite v2 = false ->
      setSessionNumber once k v2 = once
      /\ getSessionNumber (setSessionNumber once k v2) k d = v1).
Proof.
  intros Hfin1 Hpos1 once. subst once. unfold setSessionNumber at 2 4 5 7.
  rewrite Hfin1. cbn [negb]. split.
  - intros Hfin2 Hpos2. unfold setSessionNumber. rewrite Hfin2. cbn [negb].
    now apply get_after_write.
  - intros Hinf2. unfold setSessionNumber. rewrite Hinf2. cbn [negb].
    split; [reflexivity | now apply get_after_write].
Qed.

(** X4. [localStorage.ts]: in a browser a finite value [v > 0] written
    by [setLocalNumber] is what [getLocalNumber] reads back under the
    same key; without a [window], [setLocalNumber] does nothing and
    [getLocalNumber] returns the fallback. *)
Theorem local_number_roundtrip (store : gmap string string) (k : string)
    (v d : number) :
  (isFinite v = true -> gt0 v = true ->
   getLocalNumber (setLocalNumber (Some store) k v) k d = v)
  /\ setLocalNumber None k v = None
  /\ getLocalNumber (setLocalNumber None k v) k d = d.
Proof.
  split; [| split; reflexivity].
  intros Hfin Hpos. unfold setLocalNumber. rewrite Hfin. cbn [negb].
  rewrite getLocalNumber_eq. now apply get_after_write.
Qed.

End Laws.

Lemma setSessionNumber_other_key_witness :
  let window : SessionStorage.Window := Some {[ "servers.serversPerPage" := "20" ]} in
  getSessionNumber
    (setSessionNumber window "activity.itemsPerPage" (NFin 50))
    "servers.serversPerPage" (NFin 5) = NFin 20.
Proof.
  intros window.
  rewrite (setSessionNumber_other_key (N := IntNumber_JsNumber) window
             "activity.itemsPerPage" "servers.serversPerPage"
             (NFin 50) (NFin 5)) by discriminate.
  vm_compute. reflexivity.
Defined.

Lemma setSessionNumber_twice_witness :
  let once :=
    setSessionNumber (Some (∅ : gmap string string)) "servers.serversPerPage"
      (NFin 20) in
  getSessionNumber (setSessionNumber once "servers.serversPerPage" (NFin 50))
    "servers.serversPerPage" (NFin 5) = NFin 50
  /\ getSessionNumber (setSessionNumber once "servers.serversPerPage" NNaN)
       "servers.serversPerPage" (NFin 5) = NFin 20.
Proof.
  intros once.
  destruct (setSessionNumber_twice (N := IntNumber_JsNumber) ∅
              "servers.serversPerPage" (NFin 20) (NFin 50) (NFin 5)
              eq_refl eq_refl) as [Hreplace _].
  destruct (setSessionNumber_twice (N := IntNumber_JsNumber) ∅
              "servers.serversPerPage" (NFin 20) NNaN (NFin 5)
              eq_refl eq_refl) as [_ Hkeep].
  split; [apply Hreplace; reflexivity | apply Hkeep; reflexivity].
Defined.

Lemma local_number_roundtrip_witness :
  getLocalNumber
    (setLocalNumber (Some (∅ : gmap string string)) "activity.itemsPerPage"
       (NFin 50))
    "activity.itemsPerPage" (NFin 10) = NFin 50.
Proof.
  destruct (local_number_roundtrip (N := IntNumber_JsNumber) ∅
              "activity.itemsPerPage" (NFin 50) (NFin 10)) as [Hwrite _].
  apply Hwrite; reflexivity.
Defined.

(** *** Integers *)

Lemma to_int_not_nil (z : Z) : Z.to_int z <> Pos Nil /\ Z.to_int z <> Neg Nil.
Proof.
  destruct z as [|p|p]; cbn; split; try discriminate.
  - intros [= Hp]. pose proof (DecimalPos.Unsigned.of_to p) as Hof.
    rewrite Hp in Hof. discriminate Hof.
  - intros [= Hp]. pose proof (DecimalPos.Unsigned.of_to p) as Hof.
    rewrite Hp in Hof. discriminate Hof.
Qed.

Lemma int_roundtrip_all (z : Z) : int_toNumber (int_toString (NFin z)) = NFin z.
Proof.
  destruct (to_int_not_nil z) as [Hp Hn].
  unfold int_toNumber, int_toString.
  rewrite NilZero.isi by assumption.
  now rewrite DecimalZ.of_to.
Qed.

Lemma int_toString_nonempty (z : Z) : int_toString (NFin z) <> "".
Proof.
  intros Hempty. pose proof (int_roundtrip_all z) as Hback.
  rewrite Hempty in Hback. vm_compute in Hback.
  injection Hback as <-.
  vm_compute in Hempty. discriminate Hempty.
Qed.

(** X5. [setSessionNumber] stores every finite number, positive or
    not, while [getSessionNumber] accepts positive ones only: a safe
    integer [z <= 0] (so [-2^53 < z]) written under a key is stored, as
    its plain decimal text, and reading the key back gives the
    fallback. *)
Theorem nonpositive_write_reads_as_fallback (store : gmap string string)
    (k : string) (z : Z) (d : IntNumber) :
  - 2 ^ 53 < z -> z <= 0 ->
  setSessionNumber (Some store) k (NFin z)
  = Some (<[k := int_toString (NFin z)]> store)
  /\ getSessionNumber (setSessionNumber (Some store) k (NFin z)) k d = d.
Proof.
  intros Hsafe Hz. split; [reflexivity |].
  unfold setSessionNumber. cbn [isFinite IntNumber_JsNumber int_isFinite negb].
  rewrite (getSessionNumber_stored _ k (int_toString (NFin z))).
  - cbn [toNumber toString IntNumber_JsNumber]. rewrite int_roundtrip_all.
    cbn. destruct (Z.ltb_spec 0 z); [lia | reflexivity].
  - apply lookup_insert_eq.
  - apply int_toString_nonempty.
Qed.

Lemma nonpositive_write_reads_as_fallback_witness :
  setSessionNumber (Some (∅ : gmap string string)) "servers.serversPerPage"
    (NFin (-3))
  = Some {[ "servers.serversPerPage" := "-3" ]}
  /\ getSessionNumber
       (setSessionNumber (Some (∅ : gmap string string))
          "servers.serversPerPage" (NFin (-3)))
       "servers.serversPerPage" (NFin 5) = NFin 5.
Proof.
  destruct (nonpositive_write_reads_as_fallback ∅ "servers.serversPerPage"
              (-3) (NFin 5)) as [Hstored Hread]; [lia | lia |].
  split; [| exact Hread].
  rewrite Hstored. vm_compute. reflexivity.
Defined.

End StorageFacts.

(* ===================================================================== *)
(** ** More on the provider: what every event preserves *)
(* ===================================================================== *)

Module ProviderInvariants.
Import Provider Provider.Scenario ProviderSteps ProviderFacts.
Local Open Scope list_scope.

Ltac split_hyps :=
  repeat match goal with
    | H : context [match ?x with _ => _ end] |- _ =>
        destruct x eqn:?; cbn in *
    end.

(** Unfold a handler down to record updates and split on every test. *)
Ltac act_cases :=
  unfold act, authEffect, refreshIfNeeded, triggerRefresh, handlePageChange,
    handleServersPerPageChange, settle, tick in *;
  handlers; cbn; split_tests; split_hyps.

Lemma tick_sameDeps (w : World) : sameDeps w (tick w) = true.
Proof.
  unfold tick, call, sameDeps.
  destruct (intervalRef w); cbn; now rewrite !Z.eqb_refl, Bool.eqb_reflx.
Qed.

Lemma step_act (ev : Event) (w : World) :
  exists prev, step ev w = commit prev (act ev w).
Proof.
  destruct ev; cbn [step act]; try (eexists; reflexivity).
  exists w. unfold commit. now rewrite tick_sameDeps.
Qed.

(** The render resets the two attempt counters together or leaves them. *)
Lemma commit_counters (prev h : World) :
  (attemptsRef (commit prev h) = attemptsRef h
   /\ fetchAttempts (commit prev h) = fetchAttempts h)
  \/ (attemptsRef (commit prev h) = 0 /\ fetchAttempts (commit prev h) = 0).
Proof.
  unfold commit. destruct (sameDeps prev h); [now left |].
  unfold pollingEffect. by_cases.
Qed.

Lemma run_cons (ev : Event) (evs : list Event) (w : World) :
  run (ev :: evs) w = run evs (step ev w).
Proof. reflexivity. Qed.

(** An invariant of [step] holds after every run. *)
Lemma run_invariant (P : World -> Prop) :
  (forall ev w, P w -> P (step ev w)) ->
  forall evs w, P w -> P (run evs w).
Proof.
  intros Hstep evs. induction evs as [|ev evs IH]; intros w Hw; [exact Hw |].
  rewrite run_cons. apply IH, Hstep, Hw.
Qed.

(** *** The generation counter *)

Lemma step_refreshKey (ev : Event) (w : World) :
  refreshKey w <= refreshKey (step ev w) <= refreshKey w + 1.
Proof.
  destruct (step_act ev w) as [prev ->].
  destruct (commit_keeps prev (act ev w)) as (_ & _ & -> & _).
  destruct ev; act_cases; lia.
Qed.

(** X6. [refreshKey] never decreases: an event leaves it as it is or
    adds one, so that after any sequence of events it has grown by at
    most the number of events. *)
Theorem refreshKey_monotone (evs : list Event) (w : World) :
  refreshKey w <= refreshKey (run evs w) <= refreshKey w + Z.of_nat (length evs).
Proof.
  revert w. induction evs as [|ev evs IH]; intros w.
  - cbn. lia.
  - rewrite run_cons. specialize (IH (step ev w)).
    pose proof (step_refreshKey ev w). cbn [length]. lia.
Qed.

(** *** Leaving the Startup phase *)

Lemma act_stays_loaded (ev : Event) (w : World) :
  isInitialLoading w = false -> isInitialLoading (act ev w) = false.
Proof. intros Hl. destruct ev; act_cases; congruence. Qed.

Lemma step_stays_loaded (ev : Event) (w : World) :
  isInitialLoading w = false -> isInitialLoading (step ev w) = false.
Proof.
  intros Hl. destruct (step_act ev w) as [prev ->].
  destruct (commit_keeps prev (act ev w)) as (_ & _ & _ & -> & _).
  now apply act_stays_loaded.
Qed.

(** *** The attempt counters *)

Lemma step_countersAgree (ev : Event) (w : World) :
  countersAgree w -> countersAgree (step ev w).
Proof.
  unfold countersAgree. intros (Heq & Hn & Hk).
  pose proof (step_refreshKey ev w) as Hkey.
  destruct (step_act ev w) as [prev Hstep]. rewrite Hstep in *.
  assert (Hact : fetchAttempts (act ev w) = attemptsRef (act ev w)
                 /\ 0 <= attemptsRef (act ev w)).
  { clear Hstep Hkey. destruct ev; act_cases; split; lia. }
  destruct (commit_counters prev (act ev w)) as [[-> ->] | [-> ->]]; lia.
Qed.

Lemma mount_countersAgree (auth : bool) (perPage : Z) :
  countersAgree (mount auth perPage).
Proof. destruct auth; vm_compute; repeat split; congruence. Qed.

(** X8. In every state the component reaches from its first render,
    the attempt count shown ([fetchAttempts]) equals the one the
    handlers count with ([attemptsRef]), and neither it nor
    [refreshKey] is negative. *)
Theorem counters_agree (auth : bool) (perPage : Z) (evs : list Event) :
  let w := run evs (mount auth perPage) in
  fetchAttempts w = attemptsRef w /\ 0 <= attemptsRef w /\ 0 <= refreshKey w.
Proof.
  apply (run_invariant countersAgree).
  - apply step_countersAgree.
  - apply mount_countersAgree.
Qed.

(** *** The Startup phase holds no data *)

Lemma commit_quiet (prev h : World) : quiet h -> quiet (commit prev h).
Proof.
  unfold commit. destruct (sameDeps prev h); [auto |].
  intros Hq Hl.
  destruct (pollingEffect_keeps (clearTimer h)) as (Hsink & Ht & _ & Hl' & _).
  destruct (clearTimer_fields h)
    as (Hsink0 & _ & Hl0 & _ & _ & Ht0 & _ & Hin0 & _).
  rewrite Hl', Hl0 in Hl. destruct (Hq Hl) as (Hs & Ha & Hp & Ht1 & Hin & Htm).
  rewrite Hsink0 in Hsink. apply sink_fields in Hsink.
  destruct Hsink as (-> & -> & -> & _). rewrite Ht, Ht0.
  split; [exact Hs | split; [exact Ha | split; [exact Hp | split; [exact Ht1 |]]]].
  destruct (isAuthenticated (clearTimer h)) eqn:Hauth.
  - destruct (pollingEffect_calls (clearTimer h) Hauth) as [-> ->].
    rewrite Hl0, Hl, Hin0. split.
    + apply Forall_app_2; [exact Hin |]. now apply Forall_singleton.
    + now intros tm [= <-].
  - unfold pollingEffect. rewrite Hauth. cbn [negb]. rewrite Hin0. split.
    + exact Hin.
    + intros tm Htm'. rewrite clearTimer_intervalRef in Htm'. discriminate.
Qed.

Lemma act_quiet (ev : Event) (w : World) : quiet w -> quiet (act ev w).
Proof.
  intros Hq Hloading.
  assert (Hl : isInitialLoading w = true).
  { destruct (isInitialLoading w) eqn:E; [reflexivity |].
    rewrite (act_stays_loaded ev w E) in Hloading. discriminate. }
  destruct (Hq Hl) as (Hs & Ha & Hp & Ht & Hin & Htm). clear Hq.
  destruct ev as [| development now | pg | lim | auth | | i paginated full sf now onLine].
  - act_cases; repeat split; auto; intros; congruence.
  - act_cases; repeat split; auto; intros; congruence.
  - cbn. auto 10.
  - cbn. auto 10.
  - act_cases; repeat split; auto; intros; congruence.
  - cbn [act]. unfold tick, call. destruct (intervalRef w) as [tm|] eqn:E.
    + cbn. rewrite E.
      split; [exact Hs | split; [exact Ha | split; [exact Hp |]]].
      split; [exact Ht | split; [| exact Htm]].
      apply Forall_app_2; [exact Hin |]. apply Forall_singleton. cbn.
      now apply Htm.
    + rewrite E. auto 10.
  - cbn [act] in *. unfold settle in *.
    destruct (inflight w !! i) as [req|] eqn:Hreq; [| auto 10].
    pose proof (Forall_lookup_1 _ _ _ _ Hin Hreq) as Hpoll. cbn in Hpoll.
    pose proof (Forall_delete _ (inflight w) i Hin) as Hdel.
    unfold resume in *. rewrite Hpoll in *.
    destruct (promiseAll paginated full sf) as [p a | err].
    + exfalso. revert Hloading. by_cases.
    + revert Hloading. unfold fetchInitialData. cbn.
      destruct (attemptsRef w + 1 >=? CONFIG.startup.maxAttempts).
      * by_cases.
      * cbn. intros _. auto 10.
Qed.

Lemma step_quiet (ev : Event) (w : World) : quiet w -> quiet (step ev w).
Proof.
  intros Hq. destruct (step_act ev w) as [prev ->].
  now apply commit_quiet, act_quiet.
Qed.

Lemma mount_quiet (auth : bool) (perPage : Z) : quiet (mount auth perPage).
Proof.
  destruct auth; intros Hl; vm_compute in Hl; try discriminate.
  cbn. repeat split; auto.
  - repeat constructor.
  - now intros tm [= <-].
Qed.

End ProviderInvariants.

(* ===================================================================== *)
(** ** More on the provider: the phase transitions *)
(* ===================================================================== *)

Module ProviderTransitions.
Import Provider Provider.Scenario ProviderFacts.
Local Open Scope list_scope.

Lemma sameDeps_keeps (w h : World) :
  refreshKey h = refreshKey w -> isInitialLoading h = isInitialLoading w ->
  currentPage h = currentPage w -> serversPerPage h = serversPerPage w ->
  sameDeps w h = true.
Proof.
  intros Hk Hl Hpg Hlim. unfold sameDeps.
  now rewrite Hk, Hl, Hpg, Hlim, !Z.eqb_refl, Bool.eqb_reflx.
Qed.

(** The continuations change neither [refreshKey], nor the page, nor
    the page size, nor the session gate. *)
Lemma resume_keeps (req : Request) (r : AllSettled) (now : Z) (onLine : bool)
    (w : World) :
  let w' := resume req r now onLine w in
  refreshKey w' = refreshKey w /\ currentPage w' = currentPage w
  /\ serversPerPage w' = serversPerPage w
  /\ isAuthenticated w' = isAuthenticated w.
Proof. destruct r; by_cases. Qed.

(** [fetchServers] changes nothing of the engine. *)
Lemma fetchServers_engine (r : AllSettled) (now : Z) (onLine : bool)
    (w : World) :
  let w' := fetchServers r now onLine w in
  isInitialLoading w' = isInitialLoading w
  /\ intervalRef w' = intervalRef w
  /\ attemptsRef w' = attemptsRef w /\ fetchAttempts w' = fetchAttempts w
  /\ inflight w' = inflight w.
Proof. destruct r; by_cases. Qed.

(** X11. Normal polling: when a call of [fetchServers] settles, with
    answers or with a failure, the phase, the timer, [refreshKey] and
    the attempt counters stay as they are, no new call is made and no
    render effect runs: the call only leaves the list of calls in
    flight. *)
Theorem normal_settle_keeps_engine (i : nat) (req : Request)
    (paginated full : Settled) (secondFirst : bool) (now : Z) (onLine : bool)
    (w : World) :
  inflight w !! i = Some req -> poller req = FetchServers ->
  let arrives := Settle i paginated full secondFirst now onLine in
  step arrives w
  = settle i (promiseAll paginated full secondFirst) now onLine w
  /\ phase (step arrives w) = phase w
  /\ intervalRef (step arrives w) = intervalRef w
  /\ refreshKey (step arrives w) = refreshKey w
  /\ attemptsRef (step arrives w) = attemptsRef w
  /\ fetchAttempts (step arrives w) = fetchAttempts w
  /\ inflight (step arrives w) = delete i (inflight w).
Proof.
  intros Hreq Hpoll arrives. subst arrives. cbn [step].
  set (r := promiseAll paginated full secondFirst).
  rewrite (settle_resume i req) by assumption.
  set (w1 := setInflight (delete i (inflight w)) w).
  destruct (resume_keeps req r now onLine w1) as (Hk & Hpg & Hlim & Ha).
  assert (Heng : isInitialLoading (resume req r now onLine w1) = isInitialLoading w
                 /\ intervalRef (resume req r now onLine w1) = intervalRef w
                 /\ attemptsRef (resume req r now onLine w1) = attemptsRef w
                 /\ fetchAttempts (resume req r now onLine w1) = fetchAttempts w
                 /\ inflight (resume req r now onLine w1) = delete i (inflight w)).
  { unfold resume. rewrite Hpoll. apply (fetchServers_engine r now onLine w1). }
  destruct Heng as (Hl & Htm & Hn & Hf & Hin).
  change (refreshKey w1) with (refreshKey w) in Hk.
  change (currentPage w1) with (currentPage w) in Hpg.
  change (serversPerPage w1) with (serversPerPage w) in Hlim.
  change (isAuthenticated w1) with (isAuthenticated w) in Ha.
  assert (Hc : commit w (resume req r now onLine w1) = resume req r now onLine w1).
  { unfold commit. now rewrite sameDeps_keeps. }
  rewrite Hc. split; [reflexivity |].
  split; [| auto].
  unfold phase. rewrite Ha, Hl, Hn. reflexivity.
Qed.

Lemma normal_settle_keeps_engine_witness :
  let arrives :=
    Settle 1 (Rejected failedToFetch) (Resolved fullEnvelope) false 2000 true in
  phase (step arrives polling) = Normal
  /\ intervalRef (step arrives polling) = intervalRef polling
  /\ inflight (step arrives polling) = delete 1%nat (inflight polling).
Proof.
  intros arrives.
  destruct (normal_settle_keeps_engine 1 (requestOf FetchServers started)
              (Rejected failedToFetch) (Resolved fullEnvelope) false 2000 true
              polling) as (_ & Hp & Htm & _ & _ & _ & Hin);
    [vm_compute; reflexivity | reflexivity |].
  subst arrives. rewrite Hp. split; [vm_compute; reflexivity | auto].
Defined.

(** X12. Startup polling below the attempt bound: a failed call of
    [fetchInitialData] takes the engine from [Startup a] to
    [Startup (a + 1)], shows the new count, and changes neither
    [refreshKey] nor the timer; no call is made before the next tick. *)
Theorem startup_failure_counts (i : nat) (req : Request)
    (paginated full : Settled) (secondFirst : bool) (err : JsError)
    (now : Z) (onLine : bool) (w : World) :
  inflight w !! i = Some req -> poller req = FetchInitialData ->
  promiseAll paginated full secondFirst = AllRejected err ->
  isAuthenticated w = true -> isInitialLoading w = true ->
  attemptsRef w + 1 < CONFIG.startup.maxAttempts ->
  let w' := step (Settle i paginated full secondFirst now onLine) w in
  phase w' = Startup (attemptsRef w + 1)
  /\ fetchAttempts w' = attemptsRef w + 1
  /\ refreshKey w' = refreshKey w
  /\ intervalRef w' = intervalRef w
  /\ inflight w' = delete i (inflight w).
Proof.
  intros Hreq Hpoll Herr Hauth Hload Hbound w'. subst w'.
  cbn [step]. rewrite Herr, (settle_resume i req) by assumption.
  unfold resume. rewrite Hpoll. unfold fetchInitialData. cbn.
  replace (attemptsRef w + 1 >=? CONFIG.startup.maxAttempts) with false
    by (destruct (Z.geb_spec (attemptsRef w + 1) CONFIG.startup.maxAttempts);
        [lia | reflexivity]).
  unfold commit, sameDeps. cbn.
  rewrite !Z.eqb_refl, Bool.eqb_reflx. cbn.
  unfold phase. cbn. rewrite Hauth, Hload. cbn. auto.
Qed.

Lemma startup_failure_counts_witness :
  phase started = Startup 0
  /\ phase (step failure started) = Startup 1
  /\ fetchAttempts (step failure started) = 1
  /\ intervalRef (step failure started) = intervalRef started.
Proof.
  split; [vm_compute; reflexivity |].
  destruct (startup_failure_counts 0
              (requestOf FetchInitialData (initial true 5))
              (Rejected failedToFetch) (Rejected failedToFetch) false
              failedToFetch 1000 true started)
    as (Hp & Hf & _ & Htm & _);
    try (vm_compute; reflexivity).
  auto.
Defined.

Lemma fetchInitialData_resolved (pg lim : Z) (p a : Json) (now : Z)
    (onLine : bool) (w : World) :
  let w' := fetchInitialData pg lim (AllResolved p a) now onLine w in
  isInitialLoading w' = false
  /\ inflight w' = inflight w
  /\ refreshKey w' = refreshKey w
  /\ currentPage w' = currentPage w
  /\ serversPerPage w' = serversPerPage w
  /\ isAuthenticated w' = isAuthenticated w
  /\ lastFetchTimeRef w' = now.
Proof. by_cases; auto 10. Qed.

(** X13. The end of Startup polling: when a call of [fetchInitialData]
    receives both answers, the handler itself makes no call (it passes
    [immediate: false]), but [isInitialLoading] turning false is a
    dependency of the polling effect, which runs again and calls
    [fetchServers] at once for the current page and page size.  The
    engine is in Normal polling, on the Normal timer. *)
Theorem startup_success_enters_normal (i : nat) (req : Request) (p a : Json)
    (secondFirst : bool) (now : Z) (onLine : bool) (w : World) :
  inflight w !! i = Some req -> poller req = FetchInitialData ->
  isAuthenticated w = true -> isInitialLoading w = true ->
  let h := settle i (AllResolved p a) now onLine w in
  let w' := step (Settle i (Resolved p) (Resolved a) secondFirst now onLine) w in
  inflight h = delete i (inflight w)
  /\ phase w' = Normal
  /\ inflight w' = delete i (inflight w) ++ [requestOf FetchServers w]
  /\ intervalRef w' =
     Some {| callback := FetchServers; timerPage := currentPage w;
             timerLimit := serversPerPage w;
             delay := CONFIG.normal.pollingInterval |}
  /\ lastFetchTimeRef w' = now.
Proof.
  intros Hreq Hpoll Hauth Hload h w'.
  assert (Hh : h = fetchInitialData (page req) (limit req) (AllResolved p a)
                     now onLine (setInflight (delete i (inflight w)) w)).
  { subst h. rewrite (settle_resume i req) by assumption.
    unfold resume. now rewrite Hpoll. }
  destruct (fetchInitialData_resolved (page req) (limit req) p a now onLine
              (setInflight (delete i (inflight w)) w))
    as (Hl & Hin & Hk & Hpg & Hlim & Ha & Ht).
  rewrite <- Hh in Hl, Hin, Hk, Hpg, Hlim, Ha, Ht.
  cbn in Hin, Hk, Hpg, Hlim, Ha.
  split; [exact Hin |].
  subst w'. cbn [step promiseAll]. fold h. unfold commit.
  replace (sameDeps w h) with false.
  2:{ unfold sameDeps. rewrite Hl, Hload, Hk, Z.eqb_refl. reflexivity. }
  destruct (clearTimer_fields h)
    as (_ & Hk' & Hl' & _ & _ & Ht' & Ha' & Hin' & Hpg' & Hlim').
  destruct (pollingEffect_keeps (clearTimer h)) as (_ & Ht2 & _ & Hl2 & Ha2).
  destruct (pollingEffect_calls (clearTimer h)) as [Hcall Htm];
    [congruence |].
  split; [| split; [| split]].
  - unfold phase. now rewrite Ha2, Ha', Ha, Hauth, Hl2, Hl', Hl.
  - rewrite Hcall, Hin', Hin, Hl', Hl. unfold requestOf.
    now rewrite Hpg', Hpg, Hlim', Hlim, Hk', Hk.
  - now rewrite Htm, Hl', Hl, Hpg', Hpg, Hlim', Hlim.
  - now rewrite Ht2, Ht'.
Qed.

Lemma startup_success_enters_normal_witness :
  let w' :=
    step (Settle 0 (Resolved envelope) (Resolved fullEnvelope) false 1000 true)
      started in
  inflight (settle 0 (AllResolved envelope fullEnvelope) 1000 true started)
  = delete 0%nat (inflight started)
  /\ phase w' = Normal
  /\ inflight w'
     = delete 0%nat (inflight started) ++ [requestOf FetchServers started].
Proof.
  intros w'.
  destruct (startup_success_enters_normal 0
              (requestOf FetchInitialData (initial true 5))
              envelope fullEnvelope false 1000 true started)
    as (Hh & Hp & Hin & _);
    try (vm_compute; reflexivity).
  auto.
Defined.

Lemma fetchInitialData_resolved_timer (pg lim : Z) (p a : Json) (now : Z)
    (onLine : bool) (w : World) :
  let w' := fetchInitialData pg lim (AllResolved p a) now onLine w in
  intervalRef w' =
  Some {| callback := FetchServers; timerPage := pg; timerLimit := lim;
          delay := CONFIG.normal.pollingInterval |}
  /\ servers w' = servers (handlePaginated p w)
  /\ allServers w' = allServers (handleAll a w).
Proof. by_cases. Qed.

(** X14. A call of [fetchInitialData] that receives its answers after the
    engine has left Startup polling is not ignored: its data go to the
    sink, and its [startNormalPolling({ immediate: false })] replaces
    the timer by one for the page and page size the call was made with,
    whatever the current ones are.  No effect runs after it. *)
Theorem late_initial_answer_rearms_timer (i : nat) (req : Request)
    (p a : Json) (secondFirst : bool) (now : Z) (onLine : bool) (w : World) :
  inflight w !! i = Some req -> poller req = FetchInitialData ->
  isInitialLoading w = false ->
  let arrives := Settle i (Resolved p) (Resolved a) secondFirst now onLine in
  step arrives w = settle i (AllResolved p a) now onLine w
  /\ intervalRef (step arrives w) =
     Some {| callback := FetchServers; timerPage := page req;
             timerLimit := limit req;
             delay := CONFIG.normal.pollingInterval |}
  /\ currentPage (step arrives w) = currentPage w
  /\ servers (step arrives w) = servers (handlePaginated p w)
  /\ inflight (step arrives w) = delete i (inflight w).
Proof.
  intros Hreq Hpoll Hload arrives. subst arrives. cbn [step promiseAll].
  set (h := settle i (AllResolved p a) now onLine w).
  assert (Hh : h = fetchInitialData (page req) (limit req) (AllResolved p a)
                     now onLine (setInflight (delete i (inflight w)) w)).
  { subst h. rewrite (settle_resume i req) by assumption.
    unfold resume. now rewrite Hpoll. }
  destruct (fetchInitialData_resolved (page req) (limit req) p a now onLine
              (setInflight (delete i (inflight w)) w))
    as (Hl & Hin & Hk & Hpg & Hlim & _).
  destruct (fetchInitialData_resolved_timer (page req) (limit req) p a now
              onLine (setInflight (delete i (inflight w)) w))
    as (Htm & Hs & _).
  rewrite <- Hh in Hl, Hin, Hk, Hpg, Hlim, Htm, Hs.
  cbn in Hin, Hk, Hpg, Hlim.
  assert (Hc : commit w h = h).
  { unfold commit. rewrite sameDeps_keeps; congruence. }
  rewrite Hc. split; [reflexivity |].
  split; [exact Htm | split; [exact Hpg | split; [| exact Hin]]].
  rewrite Hs.
  apply (handlePaginated_servers_indep p
           (setInflight (delete i (inflight w)) w) w).
Qed.

Lemma late_initial_answer_rearms_timer_witness :
  let w := step (PageChange 3) polling in
  let w' :=
    step (Settle 0 (Resolved envelope) (Resolved fullEnvelope) false 5000 true)
      w in
  currentPage w = 3
  /\ intervalRef w =
     Some {| callback := FetchServers; timerPage := 3; timerLimit := 5;
             delay := 10000 |}
  /\ currentPage w' = 3
  /\ intervalRef w' =
     Some {| callback := FetchServers; timerPage := 1; timerLimit := 5;
             delay := 10000 |}.
Proof.
  intros w w'.
  destruct (late_initial_answer_rearms_timer 0
              (requestOf FetchInitialData started) envelope fullEnvelope
              false 5000 true w)
    as (_ & Htm & Hpg & _);
    try (vm_compute; reflexivity).
  fold w' in Htm, Hpg.
  split; [vm_compute; reflexivity | split; [vm_compute; reflexivity |]].
  split; [rewrite Hpg; vm_compute; reflexivity | exact Htm].
Defined.

(** *** A new page or page size *)

Lemma pollingEffect_query (w : World) :
  currentPage (pollingEffect w) = currentPage w
  /\ serversPerPage (pollingEffect w) = serversPerPage w.
Proof. unfold pollingEffect. by_cases. Qed.

(** The render after a handler that changed the page or the page size
    and nothing else the polling effect depends on. *)
Lemma commit_new_query (w h : World) :
  isAuthenticated h = true ->
  refreshKey h = refreshKey w -> isInitialLoading h = isInitialLoading w ->
  inflight h = inflight w -> sink h = sink w ->
  currentPage h <> currentPage w \/ serversPerPage h <> serversPerPage w ->
  let p := if isInitialLoading w then FetchInitialData else FetchServers in
  let w' := commit w h in
  currentPage w' = currentPage h /\ serversPerPage w' = serversPerPage h
  /\ isInitialLoading w' = isInitialLoading w
  /\ refreshKey w' = refreshKey w
  /\ sink w' = sink w
  /\ inflight w' =
     inflight w ++
       [{| poller := p; page := currentPage h; limit := serversPerPage h;
           origin := refreshKey w |}].
Proof.
  intros Hauth Hk Hl Hin Hsink Hnew p w'. subst p w'. unfold commit.
  replace (sameDeps w h) with false.
  2:{ unfold sameDeps. symmetry.
      destruct Hnew as [Hpg | Hlim].
      - apply Z.eqb_neq in Hpg. rewrite Z.eqb_sym in Hpg. rewrite Hpg.
        now rewrite andb_false_r.
      - apply Z.eqb_neq in Hlim. rewrite Z.eqb_sym in Hlim. rewrite Hlim.
        now rewrite andb_false_r. }
  destruct (clearTimer_fields h)
    as (Hs' & Hk' & Hl' & _ & _ & _ & Ha' & Hin' & Hpg' & Hlim').
  destruct (pollingEffect_keeps (clearTimer h)) as (Hs2 & _ & Hk2 & Hl2 & _).
  destruct (pollingEffect_query (clearTimer h)) as (Hpg2 & Hlim2).
  destruct (pollingEffect_calls (clearTimer h)) as [Hcall _]; [congruence |].
  split; [congruence | split; [congruence | split; [congruence |]]].
  split; [congruence | split; [congruence |]].
  rewrite Hcall. unfold requestOf.
  now rewrite Hin', Hin, Hl', Hl, Hpg', Hlim', Hk', Hk.
Qed.

(** X15. [setServersPerPage(lim)] puts the list back on page 1 with the
    new page size; when that changes the page or the page size, the
    polling effect runs again in the phase the engine is in, with the
    same [refreshKey] and the same data on screen, and makes a call at
    once for page 1 and [lim] items.  When nothing changes (already on
    page 1 with that size), nothing happens. *)
Theorem servers_per_page_change (lim : Z) (w : World) :
  let p := if isInitialLoading w then FetchInitialData else FetchServers in
  let w' := step (ServersPerPageChange lim) w in
  (isAuthenticated w = true ->
   serversPerPage w <> lim \/ currentPage w <> 1 ->
   currentPage w' = 1 /\ serversPerPage w' = lim
   /\ isInitialLoading w' = isInitialLoading w
   /\ refreshKey w' = refreshKey w
   /\ sink w' = sink w
   /\ inflight w' =
      inflight w ++
        [{| poller := p; page := 1; limit := lim; origin := refreshKey w |}])
  /\ (serversPerPage w = lim -> currentPage w = 1 -> w' = w).
Proof.
  intros p w'. subst p w'. cbn [step]. split.
  - intros Hauth Hnew.
    apply (commit_new_query w (handleServersPerPageChange lim w));
      try reflexivity; [exact Hauth |].
    cbn. destruct Hnew; [right | left]; congruence.
  - intros Hlim Hpg.
    assert (Hh : handleServersPerPageChange lim w = w).
    { destruct w. cbn in *. subst. reflexivity. }
    rewrite Hh. apply commit_same.
Qed.

Lemma servers_per_page_change_witness :
  let w := step (PageChange 3) polling in
  let w' := step (ServersPerPageChange 20) w in
  currentPage w = 3
  /\ currentPage w' = 1 /\ serversPerPage w' = 20
  /\ phase w' = Normal
  /\ inflight w' =
     inflight w ++
       [{| poller := FetchServers; page := 1; limit := 20; origin := 1 |}]
  /\ step (ServersPerPageChange 5) polling = polling.
Proof.
  intros w w'.
  destruct (servers_per_page_change 20 w) as [Hnew _].
  destruct (servers_per_page_change 5 polling) as [_ Hsame].
  destruct Hnew as (Hpg & Hlim & Hl & Hk & _ & Hin);
    [vm_compute; reflexivity | left; vm_compute; discriminate |].
  fold w' in Hpg, Hlim, Hl, Hk, Hin.
  split; [vm_compute; reflexivity |].
  split; [exact Hpg | split; [exact Hlim |]].
  split; [vm_compute; reflexivity |].
  split; [rewrite Hin; vm_compute; reflexivity |].
  apply Hsame; vm_compute; reflexivity.
Defined.

(** X16. [setCurrentPage(pg)] with a new page number makes the polling
    effect run again in the current phase: one call at once for page
    [pg] with the current page size, [refreshKey] and the data on
    screen unchanged.  With the current page number it does nothing. *)
Theorem page_change (pg : Z) (w : World) :
  let p := if isInitialLoading w then FetchInitialData else FetchServers in
  let w' := step (PageChange pg) w in
  (isAuthenticated w = true -> currentPage w <> pg ->
   currentPage w' = pg /\ serversPerPage w' = serversPerPage w
   /\ isInitialLoading w' = isInitialLoading w
   /\ refreshKey w' = refreshKey w
   /\ sink w' = sink w
   /\ inflight w' =
      inflight w ++
        [{| poller := p; page := pg; limit := serversPerPage w;
            origin := refreshKey w |}])
  /\ (currentPage w = pg -> w' = w).
Proof.
  intros p w'. subst p w'. cbn [step]. split.
  - intros Hauth Hnew.
    apply (commit_new_query w (handlePageChange pg w));
      try reflexivity; [exact Hauth |].
    cbn. left. congruence.
  - intros Hpg.
    assert (Hh : handlePageChange pg w = w).
    { destruct w. cbn in *. subst. reflexivity. }
    rewrite Hh. apply commit_same.
Qed.

Lemma page_change_witness :
  let w' := step (PageChange 3) polling in
  currentPage w' = 3 /\ serversPerPage w' = 5
  /\ inflight w' =
     inflight polling ++
       [{| poller := FetchServers; page := 3; limit := 5; origin := 1 |}]
  /\ step (PageChange 1) polling = polling.
Proof.
  intros w'.
  destruct (page_change 3 polling) as [Hnew _].
  destruct (page_change 1 polling) as [_ Hsame].
  destruct Hnew as (Hpg & Hlim & _ & _ & _ & Hin);
    [vm_compute; reflexivity | vm_compute; discriminate |].
  fold w' in Hpg, Hlim, Hin.
  split; [exact Hpg | split; [rewrite Hlim; vm_compute; reflexivity |]].
  split; [rewrite Hin; vm_compute; reflexivity |].
  apply Hsame; vm_compute; reflexivity.
Defined.

End ProviderTransitions.

(* ===================================================================== *)
(** ** More on the provider: logging in, and the server operations *)
(* ===================================================================== *)

Module ProviderOperations.
Import Provider Provider.Scenario ProviderHandlers ProviderFacts.
Local Open Scope list_scope.

(** The render after a handler that added one to [refreshKey] and left
    the rest of what the polling effect reads. *)
Lemma commit_new_key (prev h : World) (k : Z) :
  isAuthenticated h = true -> 0 <= k ->
  refreshKey prev = k -> refreshKey h = k + 1 ->
  let p := if isInitialLoading h then FetchInitialData else FetchServers in
  let w' := commit prev h in
  refreshKey w' = k + 1
  /\ attemptsRef w' = 0 /\ fetchAttempts w' = 0
  /\ isInitialLoading w' = isInitialLoading h
  /\ isAuthenticated w' = true
  /\ sink w' = sink h
  /\ inflight w' =
     inflight h ++
       [{| poller := p; page := currentPage h; limit := serversPerPage h;
           origin := k + 1 |}]
  /\ intervalRef w' =
     Some {| callback := p; timerPage := currentPage h;
             timerLimit := serversPerPage h;
             delay := if isInitialLoading h
                      then CONFIG.startup.pollingInterval
                      else CONFIG.normal.pollingInterval |}.
Proof.
  intros Hauth Hk0 Hprev Hkey p w'. subst p w'. unfold commit.
  replace (sameDeps prev h) with false.
  2:{ unfold sameDeps. rewrite Hprev, Hkey.
      replace (k =? k + 1) with false; [reflexivity |].
      symmetry. apply Z.eqb_neq. lia. }
  destruct (clearTimer_fields h)
    as (Hs' & Hk' & Hl' & _ & _ & _ & Ha' & Hin' & Hpg' & Hlim').
  destruct (pollingEffect_keeps (clearTimer h)) as (Hs2 & _ & Hk2 & Hl2 & Ha2).
  destruct (pollingEffect_calls (clearTimer h)) as [Hcall Htm]; [congruence |].
  destruct (pollingEffect_resets (clearTimer h)) as [Hn Hf];
    [congruence | rewrite Hk', Hkey; lia |].
  split; [congruence | split; [exact Hn | split; [exact Hf |]]].
  split; [congruence | split; [congruence | split; [congruence |]]].
  split.
  - rewrite Hcall. unfold requestOf.
    now rewrite Hin', Hl', Hpg', Hlim', Hk', Hkey.
  - now rewrite Htm, Hl', Hpg', Hlim'.
Qed.

Lemma step_login (w : World) :
  0 <= refreshKey w ->
  let p := if isInitialLoading w then FetchInitialData else FetchServers in
  let w' := step (AuthChange true) w in
  refreshKey w' = refreshKey w + 1
  /\ attemptsRef w' = 0 /\ fetchAttempts w' = 0
  /\ isInitialLoading w' = isInitialLoading w
  /\ isAuthenticated w' = true
  /\ sink w' = sink w
  /\ inflight w' =
     inflight w ++
       [{| poller := p; page := currentPage w; limit := serversPerPage w;
           origin := refreshKey w + 1 |}]
  /\ intervalRef w' =
     Some {| callback := p; timerPage := currentPage w;
             timerLimit := serversPerPage w;
             delay := if isInitialLoading w
                      then CONFIG.startup.pollingInterval
                      else CONFIG.normal.pollingInterval |}.
Proof.
  intros Hk. cbn [step]. unfold authChange, authEffect. cbn [isAuthenticated setIsAuthenticated].
  apply (commit_new_key (setIsAuthenticated true w)
           (setRefreshKey (refreshKey w + 1) (setIsAuthenticated true w))
           (refreshKey w)); auto.
Qed.

(** X17. Logging in: [refreshKey] grows by one, the attempt count
    restarts at 0, and the polling function of the phase given by
    [isInitialLoading] is called at once and put on its timer; the
    data on screen is not touched. *)
Theorem login_starts_polling (w : World) :
  0 <= refreshKey w ->
  let p := if isInitialLoading w then FetchInitialData else FetchServers in
  let w' := step (AuthChange true) w in
  refreshKey w' = refreshKey w + 1
  /\ attemptsRef w' = 0 /\ fetchAttempts w' = 0
  /\ phase w' = (if isInitialLoading w then Startup 0 else Normal)
  /\ sink w' = sink w
  /\ inflight w' =
     inflight w ++
       [{| poller := p; page := currentPage w; limit := serversPerPage w;
           origin := refreshKey w + 1 |}].
Proof.
  intros Hk p w'.
  destruct (step_login w Hk) as (Hkey & Hn & Hf & Hl & Ha & Hs & Hin & _).
  fold w' in Hkey, Hn, Hf, Hl, Ha, Hs, Hin.
  split; [exact Hkey | split; [exact Hn | split; [exact Hf |]]].
  split; [| split; [exact Hs | exact Hin]].
  unfold phase. now rewrite Ha, Hl, Hn.
Qed.

Lemma login_starts_polling_witness :
  let w := step (AuthChange false) polling in
  0 <= refreshKey w
  /\ phase (step (AuthChange true) w) = Normal
  /\ refreshKey (step (AuthChange true) w) = 2.
Proof.
  intros w. split; [vm_compute; discriminate |].
  destruct (login_starts_polling w) as (Hkey & _ & _ & Hp & _);
    [vm_compute; discriminate |].
  split; [rewrite Hp | rewrite Hkey]; vm_compute; reflexivity.
Defined.

(** X18. Logging out and in again never brings Startup polling back:
    whatever the phase before, the engine is in Normal polling after,
    both lists are empty, the error is cleared, and the call made at
    once is one of [fetchServers]. *)
Theorem relogin_polls_normally (w : World) :
  0 <= refreshKey w ->
  let w' := run [AuthChange false; AuthChange true] w in
  phase w' = Normal
  /\ servers w' = [] /\ allServers w' = [] /\ error w' = None
  /\ refreshKey w' = refreshKey w + 1
  /\ last (inflight w') =
     Some {| poller := FetchServers; page := currentPage w;
             limit := serversPerPage w; origin := refreshKey w + 1 |}.
Proof.
  intros Hk w'. subst w'. cbn [run fold_left].
  set (out := step (AuthChange false) w).
  destruct (gate_off w) as (_ & _ & Hs & Ha & He & _ & _).
  fold out in Hs, Ha, He.
  assert (Hout : isInitialLoading out = false /\ refreshKey out = refreshKey w
                 /\ currentPage out = currentPage w
                 /\ serversPerPage out = serversPerPage w).
  { subst out. cbn [step]. unfold authChange.
    set (w0 := setIsAuthenticated false w). set (h := authEffect w0).
    destruct (commit_keeps w0 h) as (_ & _ & -> & -> & _).
    assert (Hc : currentPage (commit w0 h) = currentPage h
                 /\ serversPerPage (commit w0 h) = serversPerPage h).
    { unfold commit. destruct (sameDeps w0 h); [auto |].
      destruct (ProviderTransitions.pollingEffect_query (clearTimer h)) as [-> ->].
      destruct (clearTimer_fields h) as (_ & _ & _ & _ & _ & _ & _ & _ & -> & ->).
      auto. }
    destruct Hc as [-> ->]. subst h w0. unfold authEffect. by_cases. }
  destruct Hout as (Hl & Hkey & Hpg & Hlim).
  destruct (step_login out) as (Hk' & Hn & _ & Hl' & Ha' & Hsink & Hin & _);
    [lia |].
  apply sink_fields in Hsink. destruct Hsink as (-> & -> & _ & ->).
  split; [unfold phase; now rewrite Ha', Hl', Hl |].
  split; [exact Hs | split; [exact Ha | split; [exact He |]]].
  split; [lia |].
  rewrite Hin, last_snoc, Hl, Hpg, Hlim, Hkey. reflexivity.
Qed.

Lemma relogin_polls_normally_witness :
  phase started = Startup 0
  /\ phase (run [AuthChange false; AuthChange true] started) = Normal.
Proof.
  split; [vm_compute; reflexivity |].
  apply (relogin_polls_normally started). vm_compute; discriminate.
Defined.

(** X19. The first render.  For a user who is logged in,
    [fetchInitialData] is called twice: by the polling effect of the
    first render, and again by the render that the auth effect causes
    by incrementing [refreshKey]; the engine is in [Startup 0] on the
    3000 ms timer.  For a user who is not, nothing is called, no timer
    runs, and [isInitialLoading] is already false. *)
Theorem first_render (perPage : Z) :
  let w := mount true perPage in
  let off := mount false perPage in
  phase w = Startup 0 /\ refreshKey w = 1
  /\ inflight w =
     [{| poller := FetchInitialData; page := 1; limit := perPage; origin := 0 |};
      {| poller := FetchInitialData; page := 1; limit := perPage; origin := 1 |}]
  /\ intervalRef w =
     Some {| callback := FetchInitialData; timerPage := 1;
             timerLimit := perPage;
             delay := CONFIG.startup.pollingInterval |}
  /\ phase off = Stopped /\ inflight off = [] /\ intervalRef off = None
  /\ isInitialLoading off = false.
Proof. cbn. repeat split; reflexivity. Qed.

Lemma handleServerAdd_is_refresh_aux (w : World) :
  isAuthenticated w = true -> 0 <= refreshKey w ->
  commit w (setRefreshKey (refreshKey w + 1) w) = step TriggerRefresh w.
Proof.
  intros Hauth Hk. cbn [step]. unfold commit.
  rewrite triggerRefresh_changes_deps.
  replace (sameDeps w (setRefreshKey (refreshKey w + 1) w)) with false.
  2:{ unfold sameDeps. cbn.
      replace (refreshKey w =? refreshKey w + 1) with false; [reflexivity |].
      symmetry. apply Z.eqb_neq. lia. }
  unfold pollingEffect, triggerRefresh. handlers.
  destruct w as [sv al er k l fa pgn cp spp tm ar lt au inf].
  cbn in *. subst au.
  replace (k + 1 >? 0) with true by (symmetry; apply Z.gtb_lt; lia).
  destruct tm, l; cbn;
    replace (k + 1 >? 0) with true by (symmetry; apply Z.gtb_lt; lia);
    reflexivity.
Qed.

(** X20. [handleServerAdd] and [triggerRefresh] come to the same: for
    a logged-in user, the state after [handleServerAdd()] and its
    render is the state after [triggerRefresh()] and its render. *)
Theorem handleServerAdd_is_refresh (w : World) :
  isAuthenticated w = true -> 0 <= refreshKey w ->
  commit w (handleServerAdd w) = step TriggerRefresh w.
Proof.
  intros Hauth Hk. unfold handleServerAdd.
  now apply handleServerAdd_is_refresh_aux.
Qed.

Lemma handleServerAdd_is_refresh_witness :
  commit polling (handleServerAdd polling) = step TriggerRefresh polling.
Proof.
  apply handleServerAdd_is_refresh; [vm_compute; reflexivity | vm_compute; discriminate].
Defined.

(** *** Removing, toggling, reloading and editing a server *)

(** A handler that only sets the error causes no effect to run. *)
Lemma commit_setError (msg : option string) (w : World) :
  commit w (setError msg w) = setError msg w.
Proof.
  unfold commit. now rewrite ProviderTransitions.sameDeps_keeps.
Qed.

Lemma refused_false (result : Json) :
  refused result = false
  <-> truthy result = true /\ truthy (getProp result "success") = true.
Proof.
  unfold refused.
  destruct (truthy result), (truthy (getProp result "success")); cbn;
    intuition discriminate.
Qed.

(** X21. [handleServerRemove] and [handleServerToggle] return [true]
    exactly when the request answers with a truthy value whose
    [success] is truthy.  Then, for a logged-in user, the state after
    the render is that after [triggerRefresh()].  Otherwise (a refusal,
    or a thrown error) they return [false] and set an error message and
    nothing else: no refresh, no call, the timer and the lists as they
    were. *)
Theorem remove_and_toggle_outcome (a : Answer) (w : World) :
  isAuthenticated w = true -> 0 <= refreshKey w ->
  let accepted :=
    exists result,
      a = Answered result /\ truthy result = true
      /\ truthy (getProp result "success") = true in
  let removed := handleServerRemove a w in
  let toggled := handleServerToggle a w in
  (snd removed = true <-> accepted) /\ (snd toggled = true <-> accepted)
  /\ (snd removed = true ->
      commit w (fst removed) = step TriggerRefresh w
      /\ commit w (fst toggled) = step TriggerRefresh w)
  /\ (snd removed = false ->
      (exists msg, commit w (fst removed) = setError (Some msg) w)
      /\ (exists msg, commit w (fst toggled) = setError (Some msg) w)).
Proof.
  intros Hauth Hk accepted removed toggled.
  subst accepted removed toggled.
  unfold handleServerRemove, handleServerToggle.
  destruct a as [result | err].
  - destruct (refused result) eqn:Href; cbn [fst snd].
    + assert (Hno : ~ exists r, Answered result = Answered r
                       /\ truthy r = true
                       /\ truthy (getProp r "success") = true).
      { intros (r & [= <-] & Ht & Hs).
        assert (refused result = false) by (apply refused_false; auto).
        congruence. }
      split; [split; [discriminate | intros H; now destruct Hno] |].
      split; [split; [discriminate | intros H; now destruct Hno] |].
      split; [discriminate |].
      intros _. split; eexists; apply commit_setError.
    + apply refused_false in Href.
      split; [split; [intros _; exists result; tauto | reflexivity] |].
      split; [split; [intros _; exists result; tauto | reflexivity] |].
      split; [| discriminate].
      intros _. split; now apply handleServerAdd_is_refresh_aux.
  - cbn [fst snd].
    split; [split; [discriminate | intros (r & [=] & _)] |].
    split; [split; [discriminate | intros (r & [=] & _)] |].
    split; [discriminate |].
    intros _. split; eexists; apply commit_setError.
Qed.

Lemma remove_and_toggle_outcome_witness :
  snd (handleServerRemove (Answered refusal) polling) = false
  /\ commit polling (fst (handleServerRemove (Answered refusal) polling))
     = setError (Some "boom") polling
  /\ snd (handleServerToggle (Answered envelope) polling) = true
  /\ commit polling (fst (handleServerToggle (Answered envelope) polling))
     = step TriggerRefresh polling.
Proof.
  destruct (remove_and_toggle_outcome (Answered refusal) polling)
    as (_ & _ & _ & Hfail);
    [vm_compute; reflexivity | vm_compute; discriminate |].
  destruct (remove_and_toggle_outcome (Answered envelope) polling)
    as (_ & _ & Hok & _);
    [vm_compute; reflexivity | vm_compute; discriminate |].
  split; [reflexivity |].
  split; [vm_compute; reflexivity |].
  split; [reflexivity |].
  apply Hok. reflexivity.
Defined.

Lemma triggerRefreshFrom_current (w : World) :
  triggerRefreshFrom (isInitialLoading w) w = triggerRefresh w.
Proof.
  unfold triggerRefreshFrom, triggerRefresh.
  destruct (clearTimer_fields w) as (_ & _ & -> & _). reflexivity.
Qed.

(** X22. [handleServerReload] returns [true] exactly when the request
    answers with a truthy value whose [success] is truthy, and then
    does what the [triggerRefresh] it holds does: with the one of the
    current render, the state after the render is that after
    [triggerRefresh()]; with one created while [isInitialLoading] was
    true, [isInitialLoading] is true after it, whatever it was.  A
    refusal or a thrown error sets an error message and nothing else. *)
Theorem reload_outcome (loading : bool) (a : Answer) (w : World) :
  let reloaded := handleServerReload loading a w in
  (snd reloaded = true
   <-> exists result,
         a = Answered result /\ truthy result = true
         /\ truthy (getProp result "success") = true)
  /\ (snd reloaded = true ->
      isInitialLoading (fst reloaded) = loading || isInitialLoading w
      /\ refreshKey (fst reloaded) = refreshKey w + 1
      /\ intervalRef (fst reloaded) = None
      /\ (loading = isInitialLoading w ->
          commit w (fst reloaded) = step TriggerRefresh w))
  /\ (snd reloaded = false ->
      exists msg, commit w (fst reloaded) = setError (Some msg) w).
Proof.
  intros reloaded. subst reloaded. unfold handleServerReload.
  destruct a as [result | err].
  - destruct (refused result) eqn:Href; cbn [fst snd].
    + split; [split; [discriminate |] |].
      { intros (r & [= <-] & Ht & Hs).
        assert (refused result = false) by (apply refused_false; auto).
        congruence. }
      split; [discriminate |].
      intros _. eexists. apply commit_setError.
    + apply refused_false in Href.
      split; [split; [intros _; exists result; tauto | reflexivity] |].
      split; [| discriminate].
      intros _. split; [| split; [| split]].
      * unfold triggerRefreshFrom. destruct loading; by_cases.
      * unfold triggerRefreshFrom. destruct loading; by_cases.
      * unfold triggerRefreshFrom.
        pose proof (clearTimer_intervalRef w) as Hc.
        destruct loading; cbn; exact Hc.
      * intros ->. now rewrite triggerRefreshFrom_current.
  - cbn [fst snd].
    split; [split; [discriminate | intros (r & [=] & _)] |].
    split; [discriminate |].
    intros _. eexists. apply commit_setError.
Qed.

Lemma reload_outcome_witness :
  snd (handleServerReload false (Answered envelope) polling) = true
  /\ commit polling (fst (handleServerReload false (Answered envelope) polling))
     = step TriggerRefresh polling
  /\ isInitialLoading (fst (handleServerReload true (Answered envelope) polling))
     = true
  /\ commit polling (fst (handleServerReload false (Answered refusal) polling))
     = setError (Some "server.reloadError") polling.
Proof.
  destruct (reload_outcome false (Answered envelope) polling)
    as (_ & Hok & _).
  destruct (reload_outcome true (Answered envelope) polling)
    as (_ & Hstale & _).
  destruct (reload_outcome false (Answered refusal) polling)
    as (_ & _ & Hfail).
  destruct (Hok eq_refl) as (_ & _ & _ & Hsame).
  destruct (Hstale eq_refl) as (Hl & _).
  split; [reflexivity |].
  split; [apply Hsame; vm_compute; reflexivity |].
  split; [rewrite Hl; reflexivity |].
  vm_compute. reflexivity.
Defined.

(** X23. [handleServerEdit] returns an object exactly when the request
    answers with a truthy value whose [success] and [data] are truthy;
    the object's [tools] is then never falsy (a missing list becomes
    the empty array) and the state is untouched.  Otherwise it returns
    [null] and sets an error message.  In no case does it refresh: the
    render that follows runs no effect, and [refreshKey], the timer,
    the lists and the calls in flight are as before. *)
Theorem edit_outcome (a : Answer) (w : World) :
  let edited := handleServerEdit a w in
  (is_Some (snd edited)
   <-> exists serverData,
         a = Answered serverData /\ truthy serverData = true
         /\ truthy (getProp serverData "success") = true
         /\ truthy (getProp serverData "data") = true)
  /\ (forall config, snd edited = Some config ->
      fst edited = w /\ truthy (getProp config "tools") = true)
  /\ (snd edited = None -> exists msg, fst edited = setError (Some msg) w)
  /\ commit w (fst edited) = fst edited
  /\ refreshKey (fst edited) = refreshKey w
  /\ intervalRef (fst edited) = intervalRef w
  /\ inflight (fst edited) = inflight w
  /\ servers (fst edited) = servers w
  /\ allServers (fst edited) = allServers w.
Proof.
  intros edited. subst edited. unfold handleServerEdit.
  destruct a as [serverData | err].
  - destruct (truthy serverData) eqn:Ht; cbn [andb].
    2:{ cbn [fst snd]. split.
        { split; [intros [x [=]] |].
          intros (sd & [= <-] & Ht' & _). congruence. }
        split; [discriminate |]. split; [eauto |].
        split; [apply commit_setError | auto]. }
    destruct (truthy (getProp serverData "success")) eqn:Hs; cbn [andb].
    2:{ cbn [fst snd]. split.
        { split; [intros [x [=]] |].
          intros (sd & [= <-] & _ & Hs' & _). congruence. }
        split; [discriminate |]. split; [eauto |].
        split; [apply commit_setError | auto]. }
    destruct (truthy (getProp serverData "data")) eqn:Hd.
    2:{ cbn [fst snd]. split.
        { split; [intros [x [=]] |].
          intros (sd & [= <-] & _ & _ & Hd'). congruence. }
        split; [discriminate |]. split; [eauto |].
        split; [apply commit_setError | auto]. }
    cbn [fst snd]. split.
    { split; [intros _; exists serverData; auto | intros _; eauto]. }
    split.
    { intros config [= <-]. split; [reflexivity |]. cbn.
      destruct (truthy (getProp (getProp serverData "data") "tools")) eqn:Htools;
        [exact Htools | reflexivity]. }
    split; [discriminate |].
    split; [apply commit_same | auto].
  - cbn [fst snd]. split.
    { split; [intros [x [=]] | intros (sd & [=] & _)]. }
    split; [discriminate |]. split; [eauto |].
    split; [apply commit_setError | auto].
Qed.

Lemma edit_outcome_witness :
  let detail :=
    JObj [("success", JBool true);
          ("data", JObj [("name", JStr "r1"); ("status", JStr "connected")])] in
  snd (handleServerEdit (Answered detail) polling)
  = Some (JObj [("name", JStr "r1"); ("status", JStr "connected");
                ("tools", JArr []); ("config", JUndefined)])
  /\ fst (handleServerEdit (Answered detail) polling) = polling
  /\ exists msg,
       fst (handleServerEdit (Answered refusal) polling)
       = setError (Some msg) polling.
Proof.
  intros detail.
  destruct (edit_outcome (Answered detail) polling) as (_ & Hsome & _).
  destruct (edit_outcome (Answered refusal) polling) as (_ & _ & Hnone & _).
  split; [reflexivity |].
  split; [apply (Hsome _ eq_refl) | apply Hnone; reflexivity].
Defined.

End ProviderOperations.

(* ===================================================================== *)
(** ** More on the provider: what every operation preserves *)
(* ===================================================================== *)

Module ProviderSessionFacts.
Import Provider Provider.Scenario ProviderSteps ProviderHandlers
  ProviderSession ProviderFacts ProviderInvariants.
Local Open Scope list_scope.

Lemma session_cons (op : Operation) (ops : list Operation) (w : World) :
  session (op :: ops) w = session ops (perform op w).
Proof. reflexivity. Qed.

(** What holds before a timely session and is kept by every operation
    that does not run a Startup-time [triggerRefresh] after Startup
    holds after the session. *)
Lemma session_invariant (P : World -> Prop) :
  (forall op w,
     (holdsStartupRefresh op = true -> isInitialLoading w = true) ->
     P w -> P (perform op w)) ->
  forall ops w, timely ops w = true -> P w -> P (session ops w).
Proof.
  intros Hop ops. induction ops as [|op ops IH]; intros w Ht Hw; [exact Hw |].
  cbn [timely] in Ht. apply andb_true_iff in Ht as [Hnow Hrest].
  rewrite session_cons. apply IH; [exact Hrest |].
  apply Hop; [| exact Hw].
  intros Hheld. rewrite Hheld in Hnow. exact Hnow.
Qed.

Lemma perform_handled (op : Operation) (w : World) :
  (exists ev, op = Polling ev) \/ perform op w = commit w (handled op w).
Proof. destruct op; [left; eauto | right; reflexivity ..]. Qed.

Ltac handler_cases :=
  unfold handled, handleServerAdd, handleServerRemove, handleServerToggle,
    handleServerReload, handleServerEdit, refreshIfNeededFrom,
    triggerRefreshFrom in *;
  handlers; cbn; split_tests; split_hyps.

(** The handlers of the operations write neither the lists, nor the
    pagination, nor the time of the last fetch, nor the calls in
    flight; they leave the timer or cancel it; and they leave
    [isInitialLoading] unless they run a Startup-time [triggerRefresh],
    which sets it. *)
Lemma handled_frame (op : Operation) (w : World) :
  let h := handled op w in
  servers h = servers w /\ allServers h = allServers w
  /\ pagination h = pagination w
  /\ lastFetchTimeRef h = lastFetchTimeRef w
  /\ inflight h = inflight w
  /\ (intervalRef h = intervalRef w \/ intervalRef h = None)
  /\ (isInitialLoading h = isInitialLoading w
      \/ (holdsStartupRefresh op = true /\ isInitialLoading h = true)).
Proof.
  destruct op as [ev | loading | loading development now | | a | a
                 | loading a | a | msg];
    try destruct a as [result | err];
    try destruct loading;
    handler_cases; auto 12.
Qed.

Lemma handled_loading (op : Operation) (w : World) :
  (holdsStartupRefresh op = true -> isInitialLoading w = true) ->
  isInitialLoading (handled op w) = isInitialLoading w.
Proof.
  intros Hcond.
  destruct (handled_frame op w) as (_ & _ & _ & _ & _ & _ & [Hl | [Hheld Hl]]);
    [exact Hl |].
  rewrite Hl. symmetry. now apply Hcond.
Qed.

Lemma perform_stays_loaded (op : Operation) (w : World) :
  (holdsStartupRefresh op = true -> isInitialLoading w = true) ->
  isInitialLoading w = false -> isInitialLoading (perform op w) = false.
Proof.
  intros Hcond Hl.
  destruct (perform_handled op w) as [[ev ->] | ->].
  - cbn [perform]. now apply step_stays_loaded.
  - destruct (commit_keeps w (handled op w)) as (_ & _ & _ & -> & _).
    now rewrite handled_loading.
Qed.

Lemma perform_quiet (op : Operation) (w : World) :
  (holdsStartupRefresh op = true -> isInitialLoading w = true) ->
  quiet w -> quiet (perform op w).
Proof.
  intros Hcond Hq.
  destruct (perform_handled op w) as [[ev ->] | ->].
  - cbn [perform]. now apply step_quiet.
  - apply commit_quiet. intros Hl.
    rewrite (handled_loading op w Hcond) in Hl.
    destruct (Hq Hl) as (Hs & Ha & Hp & Ht & Hin & Htm).
    destruct (handled_frame op w) as (-> & -> & -> & -> & -> & Htimer & _).
    split; [exact Hs | split; [exact Ha | split; [exact Hp |]]].
    split; [exact Ht | split; [exact Hin |]].
    intros tm Hsome. destruct Htimer as [Hsame | Hnone].
    + apply Htm. now rewrite <- Hsame.
    + rewrite Hnone in Hsome. discriminate.
Qed.

(** X7. Once [isInitialLoading] is false it stays false through every
    sequence of polling events and consumer operations (the server
    operations, [setError], a kept [triggerRefresh] or
    [refreshIfNeeded]) in which no [triggerRefresh] created during
    Startup polling runs.  That one exception is real: a reload that
    succeeds holding such a [triggerRefresh] sets [isInitialLoading]
    back to true. *)
Theorem startup_resumes_only_by_held_refresh (ops : list Operation)
    (result : Json) (w : World) :
  (isInitialLoading w = false -> timely ops w = true ->
   isInitialLoading (session ops w) = false)
  /\ (refused result = false ->
      isInitialLoading (perform (ServerReload true (Answered result)) w)
      = true).
Proof.
  split.
  - revert w. induction ops as [|op ops IH]; intros w Hl Ht; [exact Hl |].
    cbn [timely] in Ht. apply andb_true_iff in Ht as [Hnow Hrest].
    rewrite session_cons. apply IH; [| exact Hrest].
    apply perform_stays_loaded; [| exact Hl].
    intros Hheld. rewrite Hheld, Hl in Hnow. discriminate.
  - intros Hok. cbn [perform].
    match goal with
    | |- isInitialLoading (commit w ?h) = _ =>
        destruct (commit_keeps w h) as (_ & _ & _ & -> & _)
    end.
    unfold handleServerReload. rewrite Hok. cbn [fst].
    unfold triggerRefreshFrom. by_cases.
Qed.

Lemma startup_resumes_only_by_held_refresh_witness :
  let ops :=
    [Polling TriggerRefresh; ServerReload false (Answered envelope);
     ServerRemove (Answered refusal); Polling (AuthChange false);
     Polling (AuthChange true); ServerAdd; Polling Tick] in
  isInitialLoading polling = false
  /\ timely ops polling = true
  /\ isInitialLoading (session ops polling) = false
  /\ isInitialLoading (perform (ServerReload true (Answered envelope)) polling)
     = true.
Proof.
  intros ops.
  destruct (startup_resumes_only_by_held_refresh ops envelope polling)
    as [Hstay Hback].
  split; [vm_compute; reflexivity | split; [vm_compute; reflexivity |]].
  split; [apply Hstay; vm_compute; reflexivity | apply Hback; reflexivity].
Defined.

Lemma timely_quiet (auth : bool) (perPage : Z) (ops : list Operation) :
  timely ops (mount auth perPage) = true ->
  quiet (session ops (mount auth perPage)).
Proof.
  intros Ht. apply (session_invariant quiet); [| exact Ht | apply mount_quiet].
  apply perform_quiet.
Qed.

(** X9. In every state reached from the first render by polling events
    and consumer operations among which no [triggerRefresh] created
    during Startup polling runs after Startup polling has ended: as
    long as [isInitialLoading] is true the sink holds no data.  Both
    lists are empty, there is no pagination, no fetch has been recorded
    ([lastFetchTimeRef] is still 0), and every call in flight or on the
    timer is one of [fetchInitialData]. *)
Theorem startup_holds_no_data (auth : bool) (perPage : Z)
    (ops : list Operation) :
  timely ops (mount auth perPage) = true ->
  let w := session ops (mount auth perPage) in
  isInitialLoading w = true ->
  servers w = [] /\ allServers w = [] /\ pagination w = None
  /\ lastFetchTimeRef w = 0
  /\ Forall (fun req => poller req = FetchInitialData) (inflight w)
  /\ (forall tm, intervalRef w = Some tm -> callback tm = FetchInitialData).
Proof. intros Ht. exact (timely_quiet auth perPage ops Ht). Qed.

Lemma startup_holds_no_data_witness :
  let ops :=
    [Polling failure; ServerAdd; ServerReload true (Answered envelope);
     ServerToggle (Answered refusal); Polling Tick] in
  let w := session ops (mount true 5) in
  timely ops (mount true 5) = true
  /\ isInitialLoading w = true
  /\ servers w = [] /\ allServers w = [] /\ pagination w = None
  /\ lastFetchTimeRef w = 0.
Proof.
  intros ops w.
  split; [vm_compute; reflexivity | split; [vm_compute; reflexivity |]].
  destruct (startup_holds_no_data true 5 ops) as (Hs & Ha & Hp & Ht & _);
    try (vm_compute; reflexivity).
  auto.
Defined.

(** X10. During Startup polling the debounce of [refreshIfNeeded] never
    holds a refresh back.  In every state reached from the first render
    by polling events and consumer operations among which no
    [triggerRefresh] created during Startup polling runs after Startup
    polling has ended, as long as [isInitialLoading] is true no fetch
    has been recorded, so a call of [refreshIfNeeded()] at a time [now]
    of at least [MIN_REFRESH_INTERVAL] is a call of
    [triggerRefresh()]. *)
Theorem refreshIfNeeded_during_startup (auth : bool) (perPage : Z)
    (ops : list Operation) (development : bool) (now : Z) :
  timely ops (mount auth perPage) = true ->
  let w := session ops (mount auth perPage) in
  isInitialLoading w = true ->
  MIN_REFRESH_INTERVAL development <= now ->
  refreshIfNeeded development now w = triggerRefresh w.
Proof.
  intros Htimely w Hl Hnow.
  destruct (timely_quiet auth perPage ops Htimely Hl) as (_ & _ & _ & Ht & _).
  apply refreshIfNeeded_due. fold w in Ht. rewrite Ht. lia.
Qed.

Lemma refreshIfNeeded_during_startup_witness :
  let ops := [Polling failure; ServerAdd; Polling Tick] in
  let w := session ops (mount true 5) in
  refreshIfNeeded false 3000 w = triggerRefresh w.
Proof.
  apply (refreshIfNeeded_during_startup true 5
           [Polling failure; ServerAdd; Polling Tick] false 3000);
    [vm_compute; reflexivity | vm_compute; reflexivity
    | vm_compute; discriminate].
Defined.

End ProviderSessionFacts.

(* ===================================================================== *)
(** ** Properties of the activity page *)
(* ===================================================================== *)

Module ActivityPageFacts.
Import Provider ActivityPage.

(** A conditional insertion, looked up. *)
Lemma lookup_optional_insert (b : bool) (k0 v0 k v : string)
    (m : gmap string string) :
  (if b then <[k0 := v0]> m else m) !! k = Some v ->
  (b = true /\ k = k0 /\ v = v0) \/ m !! k = Some v.
Proof.
  destruct b; [| auto].
  destruct (decide (k0 = k)) as [<- | Hne].
  - rewrite lookup_insert_eq. intros [= <-]. auto.
  - rewrite lookup_insert_ne by assumption. auto.
Qed.

Lemma filled_nonempty (s : string) : filled s = true -> s <> "".
Proof.
  unfold filled. intros Hf ->. discriminate Hf.
Qed.

Lemma isValidStatus_spec (s : string) :
  isValidStatus s = true -> s = "success" \/ s = "error".
Proof.
  unfold isValidStatus, STATUS_OPTIONS. cbn.
  destruct (String.eqb_spec s "success"); [auto |].
  destruct (String.eqb_spec s "error"); [auto | discriminate].
Qed.

(** What [handleSearch] puts in the filter under each field. *)
Lemma handleSearch_lookups (st : State) :
  let filters := appliedFilters (handleSearch st) in
  filters !! "server"
  = (if filled (searchServer st) then Some (searchServer st) else None)
  /\ filters !! "tool"
     = (if filled (searchTool st) then Some (searchTool st) else None)
  /\ filters !! "status"
     = (if filled (searchStatus st) && isValidStatus (searchStatus st)
        then Some (searchStatus st) else None)
  /\ filters !! "group"
     = (if filled (searchGroup st) then Some (searchGroup st) else None)
  /\ filters !! "keyName"
     = (if filled (searchKeyName st) then Some (searchKeyName st) else None).
Proof.
  unfold handleSearch. cbn [appliedFilters setCurrentPage setAppliedFilters].
  destruct (filled (searchServer st)), (filled (searchTool st)),
    (filled (searchStatus st) && isValidStatus (searchStatus st)),
    (filled (searchGroup st)), (filled (searchKeyName st));
    repeat split;
    repeat (first [ rewrite lookup_insert_eq
                  | rewrite lookup_insert_ne by discriminate
                  | rewrite lookup_empty ]);
    reflexivity.
Qed.

(** X24. [handleSearch] always puts the page back to 1, and the filter
    it applies holds exactly the fields the user filled in: under each
    of [server], [tool], [group], [keyName] the text of its search box
    when that is not empty, under [status] the text of its box when
    that is ["success"] or ["error"], and nothing else.  So no entry
    of the filter is empty, and a [status] entry is a valid status. *)
Theorem handleSearch_filter_wellformed (st : State) (k v : string) :
  let filters := appliedFilters (handleSearch st) in
  currentPage (handleSearch st) = 1
  /\ filters !! "server"
     = (if filled (searchServer st) then Some (searchServer st) else None)
  /\ filters !! "tool"
     = (if filled (searchTool st) then Some (searchTool st) else None)
  /\ filters !! "status"
     = (if filled (searchStatus st) && isValidStatus (searchStatus st)
        then Some (searchStatus st) else None)
  /\ filters !! "group"
     = (if filled (searchGroup st) then Some (searchGroup st) else None)
  /\ filters !! "keyName"
     = (if filled (searchKeyName st) then Some (searchKeyName st) else None)
  /\ (filters !! k = Some v ->
      v <> ""
      /\ ((k = "server" /\ v = searchServer st)
          \/ (k = "tool" /\ v = searchTool st)
          \/ (k = "status" /\ v = searchStatus st
              /\ (v = "success" \/ v = "error"))
          \/ (k = "group" /\ v = searchGroup st)
          \/ (k = "keyName" /\ v = searchKeyName st))).
Proof.
  intros filters.
  split; [reflexivity |].
  destruct (handleSearch_lookups st) as (Hserver & Htool & Hstatus & Hgroup & Hkey).
  fold filters in Hserver, Htool, Hstatus, Hgroup, Hkey.
  split; [exact Hserver | split; [exact Htool | split; [exact Hstatus |]]].
  split; [exact Hgroup | split; [exact Hkey |]].
  subst filters. unfold handleSearch. cbn. intros Hk.
  apply lookup_optional_insert in Hk as [(Hf & -> & ->) | Hk].
  { split; [now apply filled_nonempty | auto 10]. }
  apply lookup_optional_insert in Hk as [(Hf & -> & ->) | Hk].
  { split; [now apply filled_nonempty | auto 10]. }
  apply lookup_optional_insert in Hk as [(Hf & -> & ->) | Hk].
  { apply andb_true_iff in Hf as [Hf Hv]. apply isValidStatus_spec in Hv.
    split; [now apply filled_nonempty | auto 10]. }
  apply lookup_optional_insert in Hk as [(Hf & -> & ->) | Hk].
  { split; [now apply filled_nonempty | auto 10]. }
  apply lookup_optional_insert in Hk as [(Hf & -> & ->) | Hk].
  { split; [now apply filled_nonempty | auto 10]. }
  rewrite lookup_empty in Hk. discriminate.
Qed.

Lemma handleSearch_filter_wellformed_witness :
  appliedFilters (handleSearch sample) !! "server" = Some "github"
  /\ "github" <> ""
  /\ appliedFilters (handleSearch sample) !! "status" = None
  /\ currentPage sample = 4 /\ currentPage (handleSearch sample) = 1.
Proof.
  destruct (handleSearch_filter_wellformed sample "server" "github")
    as (Hpage & Hserver & _ & Hstatus & _ & _ & Hentry).
  destruct Hentry as [Hne _]; [vm_compute; reflexivity |].
  split; [rewrite Hserver; reflexivity | split; [exact Hne |]].
  split; [rewrite Hstatus; reflexivity |].
  split; [reflexivity | exact Hpage].
Defined.

(** X26. [fetchData] always ends with [isLoading] false.  When a
    request throws, the activities, statistics, filter options and
    pagination on screen stay and the error is set; when the three
    answer, the error cleared at the start stays cleared, and the
    activities change only if the answer is a success envelope with an
    array [data]: any other answer leaves the previous list and
    pagination on screen. *)
Theorem fetchData_outcome (r : Fetched) (activitiesRes statsRes optionsRes : Json)
    (st : State) :
  let started := fetchData_begin st in
  let failed := fetchData_settled FetchFailed started in
  let answered :=
    fetchData_settled (FetchedAll activitiesRes statsRes optionsRes) started in
  isLoading started = true /\ error started = None
  /\ isLoading (fetchData_settled r started) = false
  /\ (activities failed = activities st /\ stats failed = stats st
      /\ filterOptions failed = filterOptions st
      /\ pagination failed = pagination st
      /\ error failed = Some "activity.fetchError")
  /\ error answered = None
  /\ activities answered =
     (if truthy (getProp activitiesRes "success")
         && isArray (getProp activitiesRes "data")
      then arrayItems (getProp activitiesRes "data")
      else activities st)
  /\ (truthy (getProp activitiesRes "success")
      && isArray (getProp activitiesRes "data") = false ->
      pagination answered = pagination st).
Proof.
  unfold fetchData_settled, fetchData_begin. cbn.
  split; [reflexivity | split; [reflexivity |]].
  split.
  { destruct r; reflexivity. }
  split; [auto 10 |].
  destruct (truthy (getProp activitiesRes "success")
            && isArray (getProp activitiesRes "data"));
    destruct (truthy (getProp activitiesRes "pagination"));
    destruct (truthy (getProp statsRes "success")
              && truthy (getProp statsRes "data"));
    destruct (truthy (getProp optionsRes "success")
              && truthy (getProp optionsRes "data"));
    cbn; repeat split; auto; discriminate.
Qed.

Lemma fetchData_outcome_witness :
  let refusal := JObj [("success", JBool false)] in
  let shown := setActivities [JStr "a1"] sample in
  activities (fetchData_settled (FetchedAll refusal refusal refusal)
                (fetchData_begin shown)) = [JStr "a1"].
Proof.
  intros refusal shown.
  destruct (fetchData_outcome FetchFailed refusal refusal refusal shown)
    as (_ & _ & _ & _ & _ & Hact & _).
  rewrite Hact. reflexivity.
Defined.

(** X27. The range shown under the table, "start to end of total".  For
    a page that exists ([1 <= page], [1 <= limit], and the first item
    of the page, number [(page - 1) * limit + 1], is within [total]),
    the range is within [1 .. total], is not empty, holds at most
    [limit] items, and exactly [limit] on every page but the last.  For
    an empty list ([total = 0], page 1) the range shown is 1 to 0. *)
Theorem range_within_total (page limit total : Z) :
  1 <= page -> 1 <= limit -> (page - 1) * limit < total ->
  1 <= rangeStart page limit
  /\ rangeStart page limit <= rangeEnd page limit total
  /\ rangeEnd page limit total <= total
  /\ rangeEnd page limit total - rangeStart page limit + 1 <= limit
  /\ (page * limit <= total ->
      rangeEnd page limit total - rangeStart page limit + 1 = limit)
  /\ rangeStart 1 limit = 1 /\ rangeEnd 1 limit 0 = 0.
Proof.
  unfold rangeStart, rangeEnd. intros Hp Hl Hfirst.
  assert (Hmul : page * limit = (page - 1) * limit + limit) by lia.
  assert (Hnn : 0 <= (page - 1) * limit) by nia.
  repeat split; lia.
Qed.

Lemma range_within_total_witness :
  rangeStart 3 10 = 21 /\ rangeEnd 3 10 25 = 25
  /\ rangeEnd 3 10 25 - rangeStart 3 10 + 1 <= 10.
Proof.
  split; [reflexivity | split; [reflexivity |]].
  destruct (range_within_total 3 10 25) as (_ & _ & _ & Hsize & _); lia.
Defined.

End ActivityPageFacts.

(* ===================================================================== *)
(** ** The page-size preferences across page loads *)
(* ===================================================================== *)

Module Preferences.
Import SessionStorage LocalStorage SessionStorageFacts StorageFacts.

(** Page sizes are integers: the stores are read and written through
    the integer instance. *)

(** [useState(() => getSessionNumber('servers.serversPerPage', 5))] *)
Definition serversPerPageAtMount (window : SessionStorage.Window) : IntNumber :=
  getSessionNumber window "servers.serversPerPage" (NFin 5).

(** The provider's first render in a browser whose session store is
    [window]; the page size read is an integer whenever the store holds
    nothing under the key or what [handleServersPerPageChangeIn] wrote. *)
Definition mountIn (window : SessionStorage.Window) (auth : bool)
  : Provider.World :=
  Provider.mount auth
    match serversPerPageAtMount window with
    | NFin z => z
    | _ => 5
    end.

(** [handleServersPerPageChange(limit)], with its write to the session
    store. *)
Definition handleServersPerPageChangeIn (lim : Z)
    (s : SessionStorage.Window * Provider.World)
  : SessionStorage.Window * Provider.World :=
  (setSessionNumber (fst s) "servers.serversPerPage" (NFin lim),
   Provider.handleServersPerPageChange lim (snd s)).




Lemma mount_serversPerPage (auth : bool) (perPage : Z) :
  Provider.serversPerPage (Provider.mount auth perPage) = perPage.
Proof. destruct auth; reflexivity. Qed.

(** X28. The page size of the server list survives a page load within
    the session: after [setServersPerPage(lim)] with a safe integer
    [lim > 0] (so [lim < 2^53]), the provider's next first render
    starts with [serversPerPage = lim], whatever the store held under
    the key before.  With nothing stored under the key it starts
    with 5. *)
Theorem serversPerPage_survives_reload (store : gmap string string) (lim : Z)
    (auth : bool) (w : Provider.World) :
  (0 < lim -> lim < 2 ^ 53 ->
   let after := handleServersPerPageChangeIn lim (Some store, w) in
   fst after
   = Some (<["servers.serversPerPage" := int_toString (NFin lim)]> store)
   /\ Provider.serversPerPage (snd after) = lim
   /\ Provider.currentPage (snd after) = 1
   /\ Provider.serversPerPage (mountIn (fst after) auth) = lim)
  /\ (store !! "servers.serversPerPage" = None ->
      Provider.serversPerPage (mountIn (Some store) auth) = 5).
Proof.
  split.
  - intros Hlim Hsafe after. subst after. unfold handleServersPerPageChangeIn.
    cbn [fst snd].
    split; [reflexivity | split; [reflexivity | split; [reflexivity |]]].
    unfold mountIn, serversPerPageAtMount. rewrite mount_serversPerPage.
    unfold setSessionNumber. cbn [isFinite IntNumber_JsNumber int_isFinite negb].
    rewrite (get_after_write (N := IntNumber_JsNumber) store
               "servers.serversPerPage" (NFin lim) (NFin 5)).
    + reflexivity.
    + reflexivity.
    + cbn. now apply Z.ltb_lt.
  - intros Hnone. unfold mountIn, serversPerPageAtMount.
    rewrite mount_serversPerPage.
    now rewrite (getSessionNumber_missing store _ _ Hnone).
Qed.

Lemma serversPerPage_survives_reload_witness :
  let after :=
    handleServersPerPageChangeIn 20
      (Some {[ "servers.serversPerPage" := "many" ]},
       Provider.Scenario.polling) in
  fst after = Some {[ "servers.serversPerPage" := "20" ]}
  /\ Provider.serversPerPage (mountIn (fst after) true) = 20
  /\ Provider.serversPerPage (mountIn (Some ∅) true) = 5.
Proof.
  intros after.
  destruct (serversPerPage_survives_reload
              {[ "servers.serversPerPage" := "many" ]} 20 true
              Provider.Scenario.polling)
    as (Hkeep & _).
  destruct (serversPerPage_survives_reload ∅ 20 true Provider.Scenario.polling)
    as (_ & Hfresh).
  destruct Hkeep as (Hstore & _ & _ & Hmount); [lia | lia |].
  fold after in Hstore, Hmount.
  split; [| split; [exact Hmount | apply Hfresh; reflexivity]].
  rewrite Hstore. vm_compute. reflexivity.
Defined.



End Preferences.
